(** * MULTICOLVARDENS: the grid accumulation action of plumed2

    A shallow embedding of [src/multicolvar/MultiColvarDensity.cpp]:
    the constructor (keyword validation and the option string handed to
    the grid vessel), [update] (grid binding, the box consistency check,
    normalisation and the task loop), [performTask] and
    [getNumberOfQuantities].

    Conventions of the model.
    - A C++ [double] is an exact rational ([Q]).  Every property below is
      about validation, control flow and the layout of the data; none
      depends on rounding.
    - [error(...)] of [Action] never returns; it is the [Error] outcome of
      the [result] monad, carrying the message of the source.
    - What the action asks of its collaborators (the simulation box, the
      stored multicolvar values, the positions of the atoms) is a record of
      queries, one field per call of the source, supplied for each step.
    - The routines of [tools/] that are used but not part of this file
      ([Tools::convert], [Pbc], the constant [epsilon]) are parameters of
      the development. *)

From Stdlib Require Import QArith Qabs ZArith Lia Lqa Ascii DecimalString Sorted.
From stdpp Require Import base option list strings.

Local Open Scope Q_scope.

(** ** Numbers, vectors and tensors *)

Abbreviation double := Q.

#[global] Instance double_inhabited : Inhabited double := populate 0.

(** [a < b] on doubles, as a boolean. *)
Definition dlt (a b : double) : bool :=
  match a ?= b with Lt => true | _ => false end.

Definition fabs (a : double) : double := Qabs a.

Record Vector : Type := mkVector { vx : double; vy : double; vz : double }.

(** [v[i]] *)
Definition vget (v : Vector) (i : nat) : double :=
  match i with
  | 0%nat => vx v
  | 1%nat => vy v
  | 2%nat => vz v
  | _ => 0
  end.

Record Tensor : Type := mkTensor { trow0 : Vector; trow1 : Vector; trow2 : Vector }.

(** [t(i,j)] *)
Definition tget (t : Tensor) (i j : nat) : double :=
  match i with
  | 0%nat => vget (trow0 t) j
  | 1%nat => vget (trow1 t) j
  | 2%nat => vget (trow2 t) j
  | _ => 0
  end.

(** ** Outcomes: a value, or the message passed to [error] *)

Inductive result (A : Type) : Type :=
| Ok (a : A)
| Error (msg : string).
Arguments Ok {A} a.
Arguments Error {A} msg.

#[global] Instance result_ret : MRet result := fun A a => Ok a.
#[global] Instance result_bind : MBind result := fun A B f m =>
  match m with
  | Ok a => f a
  | Error msg => Error msg
  end.

Definition is_error {A} (r : result A) : Prop := exists msg, r = Error msg.

(** [for(unsigned i=0;i<n;++i) body(i)] where the body may call [error]. *)
Fixpoint for_each (idx : list nat) (body : nat -> result unit) : result unit :=
  match idx with
  | [] => Ok tt
  | i :: rest => body i ≫= fun _ => for_each rest body
  end.

(** ** The input line, after keyword parsing *)

Record ActionOptions : Type := mkOptions {
  ORIGIN : list nat;                 (* parseAtomList("ORIGIN",atom) *)
  DATA_is_multicolvar : bool;        (* the dynamic_cast of the dependency *)
  DATA_label : string;               (* getPntrToArgument()->getLabel() *)
  DATA_isDensity : bool;             (* mycolv->isDensity() *)
  DATA_getFullNumberOfTasks : nat;   (* mycolv->getFullNumberOfTasks() *)
  FRACTIONAL : bool;
  DIR : string;
  NBINS : list nat;
  SPACING : list double;
  XREDUCED : bool; XLOWER : option double; XUPPER : option double;
  YREDUCED : bool; YLOWER : option double; YUPPER : option double;
  ZREDUCED : bool; ZLOWER : option double; ZUPPER : option double;
  getKeyword_KERNEL : string;        (* getKeyword("KERNEL") *)
  getKeyword_BANDWIDTH : string;     (* getKeyword("BANDWIDTH") *)
  NOMEMORY : bool;
  UNORMALIZED : bool;
  usingNaturalUnits : bool;          (* plumed.getAtoms().usingNaturalUnits() *)
  getUnits_getLength : double        (* plumed.getAtoms().getUnits().getLength() *)
}.

(** ** The grid vessel, as far as the action drives it *)

Inductive GridKind : Type := HistogramOnGrid | AverageOnGrid.

Record Grid : Type := mkGrid {
  grid_kind : GridKind;
  grid_options : string;             (* the string of VesselOptions *)
  grid_norm : double;
  grid_wasreset : bool;
  grid_min : list string;
  grid_max : list string;
  grid_nbins : list nat;
  grid_spacing : list double;
  grid_cube_units : option double;
  grid_data : list (list double)     (* the value vectors of the tasks run so far *)
}.

Definition getNorm (g : Grid) : double := grid_norm g.
Definition getMax (g : Grid) : list string := grid_max g.
Definition wasreset (g : Grid) : bool := grid_wasreset g.

Definition setNorm (n : double) (g : Grid) : Grid :=
  mkGrid (grid_kind g) (grid_options g) n (grid_wasreset g) (grid_min g)
    (grid_max g) (grid_nbins g) (grid_spacing g) (grid_cube_units g) (grid_data g).

Definition setCubeUnits (u : double) (g : Grid) : Grid :=
  mkGrid (grid_kind g) (grid_options g) (grid_norm g) (grid_wasreset g) (grid_min g)
    (grid_max g) (grid_nbins g) (grid_spacing g) (Some u) (grid_data g).

(** Modelled from the spec: [GridStore.reset] of the grid vessel, whose
    code is not part of this file; it zeroes all cells and the
    normalisation. *)
Definition clear (g : Grid) : Grid :=
  mkGrid (grid_kind g) (grid_options g) 0 (grid_wasreset g) (grid_min g)
    (grid_max g) (grid_nbins g) (grid_spacing g) (grid_cube_units g) [].

(** Modelled from the spec: [GridStore.bind] of the grid vessel; it fixes
    the bounds and the bin layout, after which the grid is bound. *)
Definition setBounds (gmin gmax : list string) (nb : list nat) (sp : list double)
    (g : Grid) : Grid :=
  mkGrid (grid_kind g) (grid_options g) (grid_norm g) false gmin gmax nb sp
    (grid_cube_units g) (grid_data g).

(** Modelled from the spec: the upstream store reports that it was
    cleared, which is what [wasreset] answers at the next step. *)
Definition signal_reset (g : Grid) : Grid :=
  mkGrid (grid_kind g) (grid_options g) (grid_norm g) true (grid_min g)
    (grid_max g) (grid_nbins g) (grid_spacing g) (grid_cube_units g) (grid_data g).

(** Modelled from the spec: a grid vessel as created from its options,
    unbound and empty. *)
Definition new_grid (k : GridKind) (opts : string) : Grid :=
  mkGrid k opts 0 true [] [] [] [] None [].

(** Modelled from the spec: [GridStore.accumulate], reached through the
    vessel interface, whose code is not part of this file.  The spreading
    of a value vector over the cells belongs to the kernel functions; the
    model keeps the value vectors the grid was given, in order. *)
Definition deposit (myvals : list double) (g : Grid) : Grid :=
  mkGrid (grid_kind g) (grid_options g) (grid_norm g) (grid_wasreset g) (grid_min g)
    (grid_max g) (grid_nbins g) (grid_spacing g) (grid_cube_units g)
    (grid_data g ++ [myvals]).

(** [deposit] for the value vectors of several tasks, in order. *)
Definition add_data (vs : list (list double)) (g : Grid) : Grid :=
  mkGrid (grid_kind g) (grid_options g) (grid_norm g) (grid_wasreset g)
    (grid_min g) (grid_max g) (grid_nbins g) (grid_spacing g)
    (grid_cube_units g) (grid_data g ++ vs).

(** ** The action *)

Record MultiColvarDensity : Type := mkAction {
  kerneltype : string;
  nomemory : bool;
  fractional : bool;
  single_run : bool;
  mycolv_isDensity : bool;
  nbins : list nat;
  gspacing : list double;
  confined : list bool;
  cmin : list double;
  cmax : list double;
  mygrid : Grid;
  origin : Vector;
  directions : list nat;
  fullTaskList : list nat;
  taskFlags : list bool
}.

Definition set_mygrid (g : Grid) (a : MultiColvarDensity) : MultiColvarDensity :=
  mkAction (kerneltype a) (nomemory a) (fractional a) (single_run a)
    (mycolv_isDensity a) (nbins a) (gspacing a) (confined a) (cmin a) (cmax a)
    g (origin a) (directions a) (fullTaskList a) (taskFlags a).

Definition set_origin (o : Vector) (a : MultiColvarDensity) : MultiColvarDensity :=
  mkAction (kerneltype a) (nomemory a) (fractional a) (single_run a)
    (mycolv_isDensity a) (nbins a) (gspacing a) (confined a) (cmin a) (cmax a)
    (mygrid a) o (directions a) (fullTaskList a) (taskFlags a).

Definition set_taskFlags (fl : list bool) (a : MultiColvarDensity) : MultiColvarDensity :=
  mkAction (kerneltype a) (nomemory a) (fractional a) (single_run a)
    (mycolv_isDensity a) (nbins a) (gspacing a) (confined a) (cmin a) (cmax a)
    (mygrid a) (origin a) (directions a) (fullTaskList a) fl.

(** [void setAnalysisStride(const bool& use_all, const unsigned& astride)] *)
Definition setAnalysisStride (use_all : bool) (astride : nat)
    (a : MultiColvarDensity) : MultiColvarDensity :=
  mkAction (kerneltype a) (nomemory a) (fractional a) use_all
    (mycolv_isDensity a) (nbins a) (gspacing a) (confined a) (cmin a) (cmax a)
    (mygrid a) (origin a) (directions a) (fullTaskList a) (taskFlags a).

(** [unsigned getNumberOfQuantities() const] *)
Definition getNumberOfQuantities (a : MultiColvarDensity) : nat :=
  (length (directions a) + 2)%nat.

(** ** What a step asks of the rest of the program *)

Record Frame : Type := mkFrame {
  getStep : nat;
  getBox : Tensor;                          (* mycolv->getBox() *)
  isOrthorombic : bool;                     (* mycolv->getPbc().isOrthorombic() *)
  getPosition : nat -> Vector;              (* positions of the requested atoms *)
  getNumberOfStoredValues : nat;            (* stash->getNumberOfStoredValues() *)
  retrieveSequentialValue : nat -> list double;
  getActiveTask : nat -> nat;               (* mycolv->getActiveTask(current) *)
  getCentralAtomPos : nat -> Vector         (* mycolv->getCentralAtomPos(task) *)
}.

(** ** Messages of the source *)

Definition msg_one_atom : string := "should only be one atom specified".
Definition msg_nbins : string := "NBINS or SPACING must be set".
Definition msg_not_orthorhombic : string :=
  "I think that density profiles with non-orthorhombic cells don't work.  If you want it have a look and see if you can work it out".
Definition msg_box_size : string := "box size should be fixed.  Use FRACTIONAL".

(** ** The constructor, [update] and [performTask] *)

Section Action.

(** [epsilon] of [tools/Tools.h], the numerical tolerance. *)
Variable epsilon : double.

(** [Tools::convert] from a double to a string and back. *)
Variable convert_to_string : double -> string.
Variable convert_to_double : string -> double.

(** [pbcDistance] and [Pbc::realToScaled] for the current box. *)
Variable pbcDistance : Tensor -> Vector -> Vector -> Vector.
Variable realToScaled : Tensor -> Vector -> Vector.

(** *** Keyword validation *)

(** The chain of comparisons on [DIR]. *)
Definition parse_DIR (direction : string) : result (list nat) :=
  if String.eqb direction "x" then Ok [0%nat]
  else if String.eqb direction "y" then Ok [1%nat]
  else if String.eqb direction "z" then Ok [2%nat]
  else if String.eqb direction "xy" then Ok [0%nat; 1%nat]
  else if String.eqb direction "xz" then Ok [0%nat; 2%nat]
  else if String.eqb direction "yz" then Ok [1%nat; 2%nat]
  else if String.eqb direction "xyz" then Ok [0%nat; 1%nat; 2%nat]
  else Error (direction +:+ " is not valid gradient direction").

(** The body shared by the three branches of the loop over the axes:
    the flag, then the two bounds, then the two checks. *)
Definition confine (tflag : bool) (lower upper : option double)
    (is_fractional : bool) (msg_fractional msg_range : string)
    : result (bool * double * double) :=
  if tflag then
    let lo := default 0 lower in
    let hi := default 0 upper in
    if is_fractional then Error msg_fractional
    else if dlt (fabs (lo - hi)) epsilon then Error msg_range
    else Ok (true, lo, hi)
  else Ok (false, 0, 0).

Definition confine_axis (ao : ActionOptions) (d : nat)
    : result (bool * double * double) :=
  match d with
  | 0%nat => confine (XREDUCED ao) (XLOWER ao) (XUPPER ao) (FRACTIONAL ao)
               "XREDUCED is incompatible with FRACTIONAL"
               "range set for x axis makes no sense"
  | 1%nat => confine (YREDUCED ao) (YLOWER ao) (YUPPER ao) (FRACTIONAL ao)
               "YREDUCED is incompatible with FRACTIONAL"
               "range set for y axis makes no sense"
  | 2%nat => confine (ZREDUCED ao) (ZLOWER ao) (ZUPPER ao) (FRACTIONAL ao)
               "ZREDUCED is incompatible with FRACTIONAL"
               "range set for z axis search makes no sense"
  | _ => Ok (false, 0, 0)
  end.

(** The loop over [directions] that fills [confined], [cmin] and [cmax]. *)
Fixpoint confine_axes (ao : ActionOptions) (dirs : list nat)
    : result (list bool * list double * list double) :=
  match dirs with
  | [] => Ok ([], [], [])
  | d :: rest =>
      '(c, lo, hi) ← confine_axis ao d;
      '(cs, los, his) ← confine_axes ao rest;
      Ok (c :: cs, lo :: los, hi :: his)
  end.

(** *** The option string of the grid *)

Definition pbc_options (conf : list bool) (n : nat) : string :=
  foldl (fun s (i : nat) => s +:+ (if (conf !!! i : bool) then ",F" else ",T"))
    (if (conf !!! 0%nat : bool) then " PBC=F" else " PBC=T")
    (seq 1 (n - 1)).

Definition coordinate_name (d : nat) : string :=
  match d with
  | 0%nat => "x"
  | 1%nat => "y"
  | 2%nat => "z"
  | _ => ""
  end.

Definition coordinates_options (dirs : list nat) : string :=
  foldl (fun s (i : nat) =>
           match (dirs !!! i : nat) with
           | 0%nat => s +:+ ",x"
           | 1%nat => s +:+ ",y"
           | 2%nat => s +:+ ",z"
           | _ => s
           end)
    (" COORDINATES=" +:+ coordinate_name (dirs !!! 0%nat))
    (seq 1 (length dirs - 1)).

Definition make_vstring (ao : ActionOptions) (dirs : list nat)
    (conf : list bool) : string :=
  let vstring := getKeyword_KERNEL ao +:+ " " +:+ getKeyword_BANDWIDTH ao in
  let vstring := vstring +:+ pbc_options conf (length dirs) in
  let vstring := vstring +:+ " COMPONENTS=" +:+ DATA_label ao +:+ ".dens" in
  let vstring := vstring +:+ coordinates_options dirs in
  let vstring := if NOMEMORY ao then vstring +:+ " NOMEMORY" else vstring in
  if UNORMALIZED ao then vstring +:+ " UNORMALIZED" else vstring.

(** *** [MultiColvarDensity::MultiColvarDensity] *)

Definition MultiColvarDensity_ctor (ao : ActionOptions)
    : result MultiColvarDensity :=
  if negb (length (ORIGIN ao) =? 1)%nat then Error msg_one_atom
  else if negb (DATA_is_multicolvar ao)
  then Error ("action labeled " +:+ DATA_label ao +:+ " is not a multicolvar")
  else
    dirs ← parse_DIR (DIR ao);
    if negb (length (NBINS ao) =? length dirs)%nat
       && negb (length (SPACING ao) =? length dirs)%nat
    then Error msg_nbins
    else
      '(conf, lo, hi) ← confine_axes ao dirs;
      let vstring := make_vstring ao dirs conf in
      let grid :=
        if DATA_isDensity ao
        then setNorm 0 (new_grid HistogramOnGrid vstring)
        else new_grid AverageOnGrid vstring in
      let grid :=
        if negb (FRACTIONAL ao) then
          if usingNaturalUnits ao then setCubeUnits (1 / 0.5292) grid
          else setCubeUnits (getUnits_getLength ao / 0.05929) grid
        else grid in
      Ok {| kerneltype := "";
            nomemory := NOMEMORY ao;
            fractional := FRACTIONAL ao;
            single_run := true;
            mycolv_isDensity := DATA_isDensity ao;
            nbins := NBINS ao;
            gspacing := SPACING ao;
            confined := conf;
            cmin := lo;
            cmax := hi;
            mygrid := grid;
            origin := mkVector 0 0 0;
            directions := dirs;
            fullTaskList := seq 0 (DATA_getFullNumberOfTasks ao);
            taskFlags := replicate (DATA_getFullNumberOfTasks ao) false |}.

(** *** [MultiColvarDensity::performTask] *)

Definition performTask (a : MultiColvarDensity) (f : Frame)
    (tindex current : nat) (myvals : list double) : list double :=
  let cvals := retrieveSequentialValue f current in
  let apos := pbcDistance (getBox f) (origin a)
                (getCentralAtomPos f (getActiveTask f current)) in
  let fpos := if fractional a then realToScaled (getBox f) apos else apos in
  let myvals := <[0%nat := cvals !!! 0%nat]> myvals in
  let myvals :=
    foldl (fun mv (j : nat) => <[(1 + j)%nat := vget fpos (directions a !!! j)]> mv)
      myvals (seq 0 (length (directions a))) in
  <[(1 + length (directions a))%nat := cvals !!! 1%nat]> myvals.

(** *** [MultiColvarDensity::update] *)

(** The bounds computed when the grid was reset. *)
Definition rebind_bounds (a : MultiColvarDensity) (f : Frame)
    : result (list double * list double) :=
  let n := length (directions a) in
  let min := replicate n (-0.5) in
  let max := replicate n 0.5 in
  if negb (fractional a) then
    if negb (isOrthorombic f) then Error msg_not_orthorhombic
    else
      let box (i : nat) := tget (getBox f) (directions a !!! i) (directions a !!! i) in
      Ok ((fun i : nat => if negb (confined a !!! i : bool) then (min !!! i) * box i
                    else cmin a !!! i) <$> seq 0 n,
          (fun i : nat => if negb (confined a !!! i : bool) then (max !!! i) * box i
                    else cmax a !!! i) <$> seq 0 n)
  else Ok (min, max).

(** The check made when the grid was not reset. *)
Definition check_box (a : MultiColvarDensity) (f : Frame) : result unit :=
  for_each (seq 0 (length (directions a))) (fun i : nat =>
    let max := convert_to_double (getMax (mygrid a) !!! i) in
    if dlt epsilon
         (fabs (2 * max - tget (getBox f) (directions a !!! i) (directions a !!! i)))
    then Error msg_box_size
    else Ok tt).

(** [deactivateAllTasks] clears every flag, the loop sets the flag of
    each stored value, and [lockContributors] fixes the list of active
    tasks.  A flag beyond the task list is not written (the source would
    write past the end of the vector; the store never holds more values
    than there are tasks). *)
Definition activate_tasks (a : MultiColvarDensity) (f : Frame) : list bool :=
  foldl (fun fl (i : nat) => <[i := true]> fl)
    (replicate (length (fullTaskList a)) false)
    (seq 0 (getNumberOfStoredValues f)).

(** Modelled from the spec: [runAllTasks] of [ActionWithVessel], whose
    code is not part of this file (step 7 of the update cycle): every
    active task runs [performTask] on a fresh value vector of
    [getNumberOfQuantities] entries, which the grid then takes. *)
Definition runAllTasks (a : MultiColvarDensity) (f : Frame) : MultiColvarDensity :=
  foldl (fun acc (i : nat) =>
           if (taskFlags acc !!! i : bool) then
             let myvals := performTask acc f i (fullTaskList acc !!! i)
                             (replicate (getNumberOfQuantities acc) 0) in
             set_mygrid (deposit myvals (mygrid acc)) acc
           else acc)
    a (seq 0 (length (fullTaskList a))).

(** The two branches on [mygrid->wasreset()]: bind the grid anew, or
    check the box against the bounds it has. *)
Definition bind_or_check (a : MultiColvarDensity) (f : Frame) : result Grid :=
  if wasreset (mygrid a) then
    '(min, max) ← rebind_bounds a f;
    let gmin := convert_to_string <$> min in
    let gmax := convert_to_string <$> max in
    Ok (setBounds gmin gmax (nbins a) (gspacing a) (clear (mygrid a)))
  else
    _ ← check_box a f;
    Ok (mygrid a).

(** The action as it stands when [runAllTasks] is called. *)
Definition before_tasks (a : MultiColvarDensity) (f : Frame) (grid : Grid)
    : MultiColvarDensity :=
  let a := set_mygrid grid a in
  let a := set_taskFlags (activate_tasks a f) a in
  let a := set_origin (getPosition f 0%nat) a in
  if mycolv_isDensity a
  then set_mygrid (setNorm (1 + getNorm (mygrid a)) (mygrid a)) a
  else a.

(** The value vectors that [runAllTasks] produces at a step, in the
    order of the tasks. *)
Definition task_values (a : MultiColvarDensity) (f : Frame) (tasks : list nat)
    : list (list double) :=
  (fun i : nat => performTask a f i (fullTaskList a !!! i)
                    (replicate (getNumberOfQuantities a) 0))
  <$> filter (fun i : nat => (taskFlags a !!! i : bool) = true) tasks.

(** Everything [update] does once it has not returned at its first line. *)
Definition process_frame (a : MultiColvarDensity) (f : Frame)
    : result MultiColvarDensity :=
  grid ← bind_or_check a f;
  Ok (runAllTasks (before_tasks a f grid) f).

Definition update (a : MultiColvarDensity) (f : Frame)
    : result MultiColvarDensity :=
  if negb (single_run a) && (getStep f =? 0)%nat then Ok a
  else process_frame a f.

(** *** A run: the steps of the simulation, each with the signal of the
    upstream store that it was cleared since the previous step. *)

Fixpoint run (a : MultiColvarDensity) (steps : list (bool * Frame))
    : result MultiColvarDensity :=
  match steps with
  | [] => Ok a
  | (cleared, f) :: rest =>
      let a := if cleared then set_mygrid (signal_reset (mygrid a)) a else a in
      a' ← update a f;
      run a' rest
  end.

(** A step that [update] does not leave at its first line. *)
Definition processed (a : MultiColvarDensity) (f : Frame) : bool :=
  negb (negb (single_run a) && (getStep f =? 0)%nat).

End Action.

(** ** A concrete instantiation, for the examples

    The tolerance of a binary64 [double], doubles written and read back as
    fractions, and the box handled as a rectangular cell with no image
    closer than the direct displacement. *)

Module Sample.

Definition epsilon : double := 1 # 4503599627370496.

Definition convert_to_string (x : double) : string :=
  NilZero.string_of_int (Z.to_int (Qnum x)) +:+ "/"
  +:+ NilEmpty.string_of_uint (Pos.to_uint (Qden x)).

(** The text before and after the first ["/"]. *)
Fixpoint split_fraction (s : string) : string * string :=
  match s with
  | EmptyString => (EmptyString, EmptyString)
  | String c rest =>
      if Ascii.eqb c "/"%char then (EmptyString, rest)
      else let '(num, den) := split_fraction rest in (String c num, den)
  end.

Definition convert_to_double (s : string) : double :=
  let '(num, den) := split_fraction s in
  match NilZero.int_of_string num, NilEmpty.uint_of_string den with
  | Some n, Some d =>
      match Pos.of_uint d with
      | Npos p => Z.of_int n # p
      | N0 => 0
      end
  | _, _ => 0
  end.

Definition pbcDistance (box : Tensor) (a b : Vector) : Vector :=
  mkVector (vx b - vx a) (vy b - vy a) (vz b - vz a).

Definition realToScaled (box : Tensor) (v : Vector) : Vector :=
  mkVector (vx v / tget box 0 0) (vy v / tget box 1 1) (vz v / tget box 2 2).

Definition construct : ActionOptions -> result MultiColvarDensity :=
  MultiColvarDensity_ctor epsilon.
Definition step : MultiColvarDensity -> Frame -> result MultiColvarDensity :=
  update epsilon convert_to_string convert_to_double pbcDistance realToScaled.
Definition steps
    : MultiColvarDensity -> list (bool * Frame) -> result MultiColvarDensity :=
  run epsilon convert_to_string convert_to_double pbcDistance realToScaled.

(** [DENSITY] data on the x axis with ten bins; the flags vary. *)
Definition options (dir : string) (is_fractional xreduced : bool)
    (xlower xupper : option double) : ActionOptions :=
  {| ORIGIN := [1%nat];
     DATA_is_multicolvar := true;
     DATA_label := "dens";
     DATA_isDensity := true;
     DATA_getFullNumberOfTasks := 2;
     FRACTIONAL := is_fractional;
     DIR := dir;
     NBINS := replicate (String.length dir) 10%nat;
     SPACING := [];
     XREDUCED := xreduced; XLOWER := xlower; XUPPER := xupper;
     YREDUCED := false; YLOWER := None; YUPPER := None;
     ZREDUCED := false; ZLOWER := None; ZUPPER := None;
     getKeyword_KERNEL := "gaussian";
     getKeyword_BANDWIDTH := "0.05";
     NOMEMORY := false;
     UNORMALIZED := false;
     usingNaturalUnits := false;
     getUnits_getLength := 1 |}.

Definition with_ORIGIN (atoms : list nat) (ao : ActionOptions) : ActionOptions :=
  mkOptions atoms (DATA_is_multicolvar ao) (DATA_label ao) (DATA_isDensity ao)
    (DATA_getFullNumberOfTasks ao) (FRACTIONAL ao) (DIR ao) (NBINS ao)
    (SPACING ao) (XREDUCED ao) (XLOWER ao) (XUPPER ao) (YREDUCED ao)
    (YLOWER ao) (YUPPER ao) (ZREDUCED ao) (ZLOWER ao) (ZUPPER ao)
    (getKeyword_KERNEL ao) (getKeyword_BANDWIDTH ao) (NOMEMORY ao)
    (UNORMALIZED ao) (usingNaturalUnits ao) (getUnits_getLength ao).

Definition with_NBINS (bins : list nat) (ao : ActionOptions) : ActionOptions :=
  mkOptions (ORIGIN ao) (DATA_is_multicolvar ao) (DATA_label ao)
    (DATA_isDensity ao) (DATA_getFullNumberOfTasks ao) (FRACTIONAL ao)
    (DIR ao) bins (SPACING ao) (XREDUCED ao) (XLOWER ao) (XUPPER ao)
    (YREDUCED ao) (YLOWER ao) (YUPPER ao) (ZREDUCED ao) (ZLOWER ao)
    (ZUPPER ao) (getKeyword_KERNEL ao) (getKeyword_BANDWIDTH ao)
    (NOMEMORY ao) (UNORMALIZED ao) (usingNaturalUnits ao)
    (getUnits_getLength ao).

(** The action that the constructor builds from an input line it
    accepts, and the action that a run leaves. *)
Definition unbuilt : MultiColvarDensity :=
  mkAction "" false false true false [] [] [] [] []
    (new_grid AverageOnGrid "") (mkVector 0 0 0) [] [] [].

Definition built (ao : ActionOptions) : MultiColvarDensity :=
  match construct ao with
  | Ok a => a
  | Error _ => unbuilt
  end.

Definition after (a : MultiColvarDensity) (frames : list (bool * Frame))
    : MultiColvarDensity :=
  match steps a frames with
  | Ok a' => a'
  | Error _ => unbuilt
  end.

(** Four input lines: the box along x, fractional coordinates along x
    and along x and z, and x confined to [0, 1]. *)
Definition box_x : ActionOptions := options "x" false false None None.
Definition fractional_x : ActionOptions := options "x" true false None None.
Definition fractional_xz : ActionOptions := options "xz" true false None None.
Definition confined_x : ActionOptions :=
  options "x" false true (Some 0) (Some 1).

Definition cubic (side : double) : Tensor :=
  mkTensor (mkVector side 0 0) (mkVector 0 side 0) (mkVector 0 0 side).

(** A cell whose second vector leans along x. *)
Definition sheared (side : double) : Tensor :=
  mkTensor (mkVector side 0 0) (mkVector 1 side 0) (mkVector 0 0 side).

(** Two stored values, with weight 1, for atoms at 0.25 and 0.75 along
    every axis; the origin atom sits at 0.5. *)
Definition frame (n : nat) (box : Tensor) (orthorhombic : bool) : Frame :=
  {| getStep := n;
     getBox := box;
     isOrthorombic := orthorhombic;
     getPosition := fun _ => mkVector 0.5 0.5 0.5;
     getNumberOfStoredValues := 2;
     retrieveSequentialValue := fun _ => [1; 1];
     getActiveTask := fun current => current;
     getCentralAtomPos := fun task =>
       match task with
       | 0%nat => mkVector 0.25 0.25 0.25
       | _ => mkVector 0.75 0.75 0.75
       end |}.

(** Three steps in a fixed cubic box, two particles at each, no
    clearing signalled. *)
Definition three_steps : list (bool * Frame) :=
  [(false, frame 0 (cubic 2) true); (false, frame 1 (cubic 2) true);
   (false, frame 2 (cubic 2) true)].

(** The first of the three steps alone, and the three steps with a
    clearing signalled at the second. *)
Definition first_step : list (bool * Frame) := [(false, frame 0 (cubic 2) true)].

Definition steps_with_clearing : list (bool * Frame) :=
  [(false, frame 0 (cubic 2) true)]
  ++ (true, frame 1 (cubic 2) true) :: [(false, frame 2 (cubic 2) true)].

End Sample.

(** ** What the keywords of an input line say about an axis *)

(** The axes named by [DIR]; none when [DIR] is not one of the seven
    accepted values. *)
Definition configured_axes (ao : ActionOptions) : list nat :=
  match parse_DIR (DIR ao) with
  | Ok dirs => dirs
  | Error _ => []
  end.

Definition axis_reduced (ao : ActionOptions) (d : nat) : bool :=
  match d with
  | 0%nat => XREDUCED ao
  | 1%nat => YREDUCED ao
  | 2%nat => ZREDUCED ao
  | _ => false
  end.

Definition axis_lower (ao : ActionOptions) (d : nat) : double :=
  match d with
  | 0%nat => default 0 (XLOWER ao)
  | 1%nat => default 0 (YLOWER ao)
  | 2%nat => default 0 (ZLOWER ao)
  | _ => 0
  end.

Definition axis_upper (ao : ActionOptions) (d : nat) : double :=
  match d with
  | 0%nat => default 0 (XUPPER ao)
  | 1%nat => default 0 (YUPPER ao)
  | 2%nat => default 0 (ZUPPER ao)
  | _ => 0
  end.

(** The number of steps of a run that [update] does not leave at its first
    line; [single_run] does not change during a run. *)
Definition processed_steps (a : MultiColvarDensity) (steps : list (bool * Frame)) : nat :=
  length (filter (fun s => processed a s.2 = true) steps).

(** The seven selections of axes that [DIR] can name. *)
Definition axis_selections : list (list nat) :=
  [[0]; [1]; [2]; [0; 1]; [0; 2]; [1; 2]; [0; 1; 2]]%nat.

(** The value of the [PBC] keyword of a grid, written from the words of the
    specification: one flag per axis, separated by commas, [T] for a
    periodic axis and [F] for one that is not. *)
Definition flag_text (periodic : bool) : string :=
  if periodic then "T" else "F".

Fixpoint comma_separated (items : list string) : string :=
  match items with
  | [] => ""
  | [x] => x
  | x :: rest => x +:+ "," +:+ comma_separated rest
  end.

Definition periodicity_text (periodic : list bool) : string :=
  comma_separated (flag_text <$> periodic).

(** The text that the loop of the constructor over the axes from the
    second on appends to [" PBC=F"] or [" PBC=T"]. *)
Fixpoint further_flags (conf : list bool) : string :=
  match conf with
  | [] => ""
  | c :: rest => (if c then ",F" else ",T") +:+ further_flags rest
  end.

(** The same step, with another answer of [isOrthorombic]. *)
Definition with_isOrthorombic (b : bool) (f : Frame) : Frame :=
  mkFrame (getStep f) (getBox f) b (getPosition f) (getNumberOfStoredValues f)
    (retrieveSequentialValue f) (getActiveTask f) (getCentralAtomPos f).

(** ** More on input lines, actions and runs *)




(** The two messages of the loop over the axes, for each axis. *)
Definition msg_fractional (d : nat) : string :=
  match d with
  | 0%nat => "XREDUCED is incompatible with FRACTIONAL"
  | 1%nat => "YREDUCED is incompatible with FRACTIONAL"
  | _ => "ZREDUCED is incompatible with FRACTIONAL"
  end.

Definition msg_range (d : nat) : string :=
  match d with
  | 0%nat => "range set for x axis makes no sense"
  | 1%nat => "range set for y axis makes no sense"
  | _ => "range set for z axis search makes no sense"
  end.

(** What [update] never writes: every member but [mygrid], [origin] and
    the task flags, and of the grid its kind, its options and its units. *)
Definition same_configuration (a a' : MultiColvarDensity) : Prop :=
  kerneltype a' = kerneltype a
  /\ nomemory a' = nomemory a
  /\ fractional a' = fractional a
  /\ single_run a' = single_run a
  /\ mycolv_isDensity a' = mycolv_isDensity a
  /\ nbins a' = nbins a
  /\ gspacing a' = gspacing a
  /\ confined a' = confined a
  /\ cmin a' = cmin a
  /\ cmax a' = cmax a
  /\ directions a' = directions a
  /\ fullTaskList a' = fullTaskList a
  /\ grid_kind (mygrid a') = grid_kind (mygrid a)
  /\ grid_options (mygrid a') = grid_options (mygrid a)
  /\ grid_cube_units (mygrid a') = grid_cube_units (mygrid a).

(** The vectors indexed by axis have one entry per axis, the task flags
    one per task, and a grid that is bound has one lower and one upper
    bound per axis: the index loops of [update] stay in range. *)
Definition well_formed (a : MultiColvarDensity) : Prop :=
  directions a ∈ axis_selections
  /\ length (confined a) = length (directions a)
  /\ length (cmin a) = length (directions a)
  /\ length (cmax a) = length (directions a)
  /\ (fractional a = true -> Forall (fun c : bool => c = false) (confined a))
  /\ fullTaskList a = seq 0 (length (fullTaskList a))
  /\ length (taskFlags a) = length (fullTaskList a)
  /\ (wasreset (mygrid a) = false ->
      length (grid_min (mygrid a)) = length (directions a)
      /\ length (grid_max (mygrid a)) = length (directions a)).

(** The upper bound that a step binding the grid computes for an axis. *)
Definition bound_upper (a : MultiColvarDensity) (f : Frame) (i : nat) : double :=
  if fractional a then 0.5
  else if (confined a !!! i : bool) then cmax a !!! i
       else 0.5 * tget (getBox f) (directions a !!! i) (directions a !!! i).

(** The value vector of the stored value [current]: its weight, the
    coordinates of its displacement from [o] along the axes [dirs], its
    value. *)
Definition value_vector (pbcDistance : Tensor -> Vector -> Vector -> Vector)
    (realToScaled : Tensor -> Vector -> Vector) (o : Vector)
    (is_fractional : bool) (dirs : list nat) (f : Frame) (current : nat)
    : list double :=
  let apos := pbcDistance (getBox f) o
                (getCentralAtomPos f (getActiveTask f current)) in
  let fpos := if is_fractional then realToScaled (getBox f) apos else apos in
  (retrieveSequentialValue f current !!! 0%nat)
  :: (vget fpos <$> dirs) ++ [retrieveSequentialValue f current !!! 1%nat].

(** The option string of the grid, written out field by field. *)
Definition option_string (ao : ActionOptions) (dirs : list nat)
    (conf : list bool) : string :=
  getKeyword_KERNEL ao +:+ " " +:+ getKeyword_BANDWIDTH ao
  +:+ " PBC=" +:+ periodicity_text (negb <$> conf)
  +:+ " COMPONENTS=" +:+ DATA_label ao +:+ ".dens"
  +:+ " COORDINATES=" +:+ comma_separated (coordinate_name <$> dirs)
  +:+ (if NOMEMORY ao then " NOMEMORY" else "")
  +:+ (if UNORMALIZED ao then " UNORMALIZED" else "").

(** ** Properties *)

Section Properties.

Variable epsilon : double.
Variable convert_to_string : double -> string.
Variable convert_to_double : string -> double.
Variable pbcDistance : Tensor -> Vector -> Vector -> Vector.
Variable realToScaled : Tensor -> Vector -> Vector.

Abbreviation ctor := (MultiColvarDensity_ctor epsilon).
Abbreviation update_ :=
  (update epsilon convert_to_string convert_to_double pbcDistance realToScaled).
Abbreviation process_frame_ :=
  (process_frame epsilon convert_to_string convert_to_double pbcDistance realToScaled).
Abbreviation run_ :=
  (run epsilon convert_to_string convert_to_double pbcDistance realToScaled).

(** *** The result monad *)

Lemma bind_Ok_inv {A B} (m : result A) (k : A -> result B) (b : B) :
  m ≫= k = Ok b -> exists a, m = Ok a /\ k a = Ok b.
Proof. destruct m as [a|msg]; simpl; [eauto | discriminate]. Qed.

Lemma bind_Error {A B} (m : result A) (k : A -> result B) :
  is_error m -> is_error (m ≫= k).
Proof. intros [msg ->]. exists msg. reflexivity. Qed.

Lemma dlt_spec (a b : double) : dlt a b = true <-> a < b.
Proof.
  unfold dlt. rewrite Qlt_alt.
  destruct (a ?= b); split; intro H; try reflexivity; discriminate.
Qed.

(** *** The task loop *)

Lemma run_tasks_from (f : Frame) (tasks : list nat) :
  forall a : MultiColvarDensity,
    foldl (fun acc (i : nat) =>
             if (taskFlags acc !!! i : bool) then
               set_mygrid
                 (deposit (performTask pbcDistance realToScaled acc f i
                             (fullTaskList acc !!! i)
                             (replicate (getNumberOfQuantities acc) 0))
                    (mygrid acc)) acc
             else acc) a tasks
    = set_mygrid
        (add_data (task_values pbcDistance realToScaled a f tasks) (mygrid a)) a.
Proof.
  induction tasks as [|i rest IH]; intros a.
  - destruct a as [? ? ? ? ? ? ? ? ? ? g ? ? ? ?]; destruct g.
    unfold task_values, set_mygrid, add_data; simpl.
    rewrite app_nil_r. reflexivity.
  - cbn [foldl]. rewrite IH. unfold task_values.
    rewrite filter_cons.
    destruct (taskFlags a !!! i) eqn:Hflag.
    + rewrite decide_True by reflexivity.
      unfold set_mygrid, add_data, deposit; cbn.
      rewrite <- app_assoc. reflexivity.
    + rewrite decide_False by discriminate.
      reflexivity.
Qed.

Lemma runAllTasks_spec (a : MultiColvarDensity) (f : Frame) :
  runAllTasks pbcDistance realToScaled a f
  = set_mygrid
      (add_data (task_values pbcDistance realToScaled a f
                   (seq 0 (length (fullTaskList a)))) (mygrid a)) a.
Proof. apply run_tasks_from. Qed.

(** *** The loop over the axes *)

Lemma confine_axis_fractional ao d :
  FRACTIONAL ao = true -> axis_reduced ao d = true ->
  is_error (confine_axis epsilon ao d).
Proof.
  intros Hf Hr. destruct d as [|[|[|d]]]; simpl in Hr; try discriminate;
    unfold confine_axis, confine; rewrite Hr, Hf; eexists; reflexivity.
Qed.

Lemma confine_axis_degenerate ao d :
  axis_reduced ao d = true ->
  Qabs (axis_upper ao d - axis_lower ao d) < epsilon ->
  is_error (confine_axis epsilon ao d).
Proof.
  intros Hr Hlt. rewrite Qabs_Qminus in Hlt. apply dlt_spec in Hlt.
  destruct d as [|[|[|d]]]; simpl in Hr; try discriminate;
    cbn [axis_lower axis_upper] in Hlt;
    unfold confine_axis, confine, fabs; rewrite Hr, Hlt;
    destruct (FRACTIONAL ao); eexists; reflexivity.
Qed.

Lemma confine_axes_error ao dirs d :
  d ∈ dirs -> is_error (confine_axis epsilon ao d) ->
  is_error (confine_axes epsilon ao dirs).
Proof.
  intros Hin Herr. induction dirs as [|d' rest IH].
  - apply elem_of_nil in Hin. contradiction.
  - cbn [confine_axes]. apply elem_of_cons in Hin as [<- | Hin].
    + apply bind_Error, Herr.
    + destruct (confine_axis epsilon ao d') as [[[c lo] hi]|msg];
        [|eexists; reflexivity].
      destruct (IH Hin) as [msg Hmsg]. exists msg.
      cbn [mbind result_bind]. rewrite Hmsg. reflexivity.
Qed.

(** An axis that fails its checks fails the whole constructor: the
    earlier checks can only fail before it. *)
Lemma ctor_axis_error ao d :
  d ∈ configured_axes ao -> is_error (confine_axis epsilon ao d) ->
  is_error (ctor ao).
Proof.
  unfold configured_axes, MultiColvarDensity_ctor. intros Hin Herr.
  destruct (negb (length (ORIGIN ao) =? 1)%nat); [eexists; reflexivity|].
  destruct (negb (DATA_is_multicolvar ao)); [eexists; reflexivity|].
  destruct (parse_DIR (DIR ao)) as [dirs|msg]; simpl; [|eexists; reflexivity].
  destruct (negb (length (NBINS ao) =? length dirs)%nat
            && negb (length (SPACING ao) =? length dirs)%nat);
    [eexists; reflexivity|].
  apply bind_Error, (confine_axes_error ao dirs d Hin Herr).
Qed.

(** C5. Confinement of a configured axis ([XREDUCED], [YREDUCED] or
    [ZREDUCED]) together with [FRACTIONAL] is rejected by the
    constructor, whichever the axis: no action exists, so no frame is
    ever processed. *)
Theorem confinement_with_fractional_rejected ao d :
  FRACTIONAL ao = true ->
  d ∈ configured_axes ao ->
  axis_reduced ao d = true ->
  is_error (ctor ao).
Proof.
  intros Hf Hin Hr.
  apply (ctor_axis_error ao d Hin), confine_axis_fractional; assumption.
Qed.

(** C6. The constructor fails when neither [NBINS] nor [SPACING] has one
    entry per configured axis, and also when a confined axis has a range
    with [|upper - lower|] below the tolerance. *)
Theorem incomplete_or_degenerate_setup_rejected ao :
  (length (NBINS ao) <> length (configured_axes ao)
   /\ length (SPACING ao) <> length (configured_axes ao))
  \/ (exists d, d ∈ configured_axes ao /\ axis_reduced ao d = true
                /\ Qabs (axis_upper ao d - axis_lower ao d) < epsilon) ->
  is_error (ctor ao).
Proof.
  intros [[Hn Hs] | (d & Hin & Hr & Hlt)].
  - unfold configured_axes in Hn, Hs. unfold MultiColvarDensity_ctor.
    destruct (negb (length (ORIGIN ao) =? 1)%nat); [eexists; reflexivity|].
    destruct (negb (DATA_is_multicolvar ao)); [eexists; reflexivity|].
    destruct (parse_DIR (DIR ao)) as [dirs|msg]; simpl; [|eexists; reflexivity].
    apply Nat.eqb_neq in Hn, Hs. rewrite Hn, Hs. simpl.
    eexists; reflexivity.
  - apply (ctor_axis_error ao d Hin), confine_axis_degenerate; assumption.
Qed.

(** *** One step of [update] *)

Lemma update_skipped a f :
  single_run a = false -> getStep f = 0%nat -> update_ a f = Ok a.
Proof. intros Hs Hz. unfold update. rewrite Hs, Hz. reflexivity. Qed.

Lemma update_processed a f :
  processed a f = true -> update_ a f = process_frame_ a f.
Proof.
  unfold processed, update. intros H. apply negb_true_iff in H.
  rewrite H. reflexivity.
Qed.

Lemma processed_iff a f :
  processed a f = true <-> single_run a = true \/ getStep f <> 0%nat.
Proof.
  unfold processed. destruct (single_run a); simpl.
  - split; auto.
  - destruct (Nat.eqb_spec (getStep f) 0); simpl; split; intros H;
      try discriminate; auto.
    destruct H as [H|H]; [discriminate | contradiction].
Qed.

Lemma process_frame_Ok a f a' :
  process_frame_ a f = Ok a' ->
  exists g,
    bind_or_check epsilon convert_to_string convert_to_double a f = Ok g
    /\ a' = runAllTasks pbcDistance realToScaled (before_tasks a f g) f.
Proof.
  unfold process_frame. intros H.
  apply bind_Ok_inv in H as (g & Hg & H). exists g. split; [exact Hg|].
  injection H as <-. reflexivity.
Qed.

(** The grid that the first half of [update] leaves: bound, and emptied
    when it was bound anew. *)
Lemma bind_or_check_Ok a f g :
  bind_or_check epsilon convert_to_string convert_to_double a f = Ok g ->
  wasreset g = false
  /\ getNorm g = (if wasreset (mygrid a) then 0 else getNorm (mygrid a))
  /\ grid_data g = (if wasreset (mygrid a) then [] else grid_data (mygrid a)).
Proof.
  unfold bind_or_check. destruct (wasreset (mygrid a)) eqn:Hw; intros H.
  - apply bind_Ok_inv in H as ([mins maxs] & _ & H).
    injection H as <-. repeat split.
  - apply bind_Ok_inv in H as (u & _ & H). injection H as <-.
    repeat split. exact Hw.
Qed.

(** What a processed step leaves behind. *)
Lemma update_processed_Ok a f a' :
  processed a f = true -> update_ a f = Ok a' ->
  exists g,
    bind_or_check epsilon convert_to_string convert_to_double a f = Ok g
    /\ origin a' = getPosition f 0%nat
    /\ single_run a' = single_run a
    /\ mycolv_isDensity a' = mycolv_isDensity a
    /\ fractional a' = fractional a
    /\ directions a' = directions a
    /\ wasreset (mygrid a') = false
    /\ getNorm (mygrid a')
        = (if mycolv_isDensity a then 1 + getNorm g else getNorm g)
    /\ grid_min (mygrid a') = grid_min g
    /\ grid_max (mygrid a') = grid_max g
    /\ grid_nbins (mygrid a') = grid_nbins g
    /\ grid_spacing (mygrid a') = grid_spacing g
    /\ grid_data (mygrid a')
        = grid_data g
          ++ task_values pbcDistance realToScaled a' f
               (seq 0 (length (fullTaskList a'))).
Proof.
  intros Hp H. rewrite (update_processed a f Hp) in H.
  apply process_frame_Ok in H as (g & Hg & ->). exists g.
  split; [exact Hg|].
  destruct (bind_or_check_Ok a f g Hg) as (Hw & _ & _).
  rewrite runAllTasks_spec. unfold before_tasks.
  destruct (mycolv_isDensity a) eqn:Hd; cbn; rewrite ?Hd; cbn;
    repeat split; try exact Hw; exact Hd.
Qed.

(** C4 (amended). [update] returns at once, leaving the action as it
    was, when the run is windowed ([single_run] is false) and the step is
    step 0; in every other case, a single aggregate run at step 0
    included, it goes on to process the frame. *)
Theorem initial_step_skipped_only_when_windowed a f :
  (single_run a = false -> getStep f = 0%nat ->
   update epsilon convert_to_string convert_to_double pbcDistance
     realToScaled a f = Ok a)
  /\ (single_run a = true \/ getStep f <> 0%nat ->
      update epsilon convert_to_string convert_to_double pbcDistance
        realToScaled a f
      = process_frame epsilon convert_to_string convert_to_double
          pbcDistance realToScaled a f).
Proof.
  split.
  - apply update_skipped.
  - intros H. apply update_processed, processed_iff, H.
Qed.

(** C1 (amended). When a processed step binds the grid anew, the mode is
    not fractional and the cell is not orthorhombic, [update] fails with
    the message about non-orthorhombic cells.  In fractional mode
    [update] does not look at the shape of the cell. *)
Theorem non_orthorhombic_rejected_when_binding_in_box_units a f :
  (processed a f = true -> wasreset (mygrid a) = true ->
   fractional a = false -> isOrthorombic f = false ->
   update_ a f = Error msg_not_orthorhombic)
  /\ (fractional a = true ->
      forall b, update_ a (with_isOrthorombic b f) = update_ a f).
Proof.
  split.
  - intros Hp Hw Hf Ho. rewrite (update_processed a f Hp).
    unfold process_frame, bind_or_check, rebind_bounds.
    rewrite Hw, Hf, Ho. reflexivity.
  - intros Hf b.
    unfold update, process_frame, bind_or_check, rebind_bounds.
    rewrite Hf. reflexivity.
Qed.

(** C10. The constructor fails unless [ORIGIN] names exactly one atom;
    and every step that [update] processes reads the position of that
    atom anew: it is the origin the step leaves in the action, and the
    value vectors the step adds to the grid are those of [performTask]
    with that origin. *)
Theorem single_origin_read_at_every_step ao a f a' :
  (length (ORIGIN ao) <> 1%nat -> ctor ao = Error msg_one_atom)
  /\ (processed a f = true -> update_ a f = Ok a' ->
      origin a' = getPosition f 0%nat
      /\ grid_data (mygrid a')
         = (if wasreset (mygrid a) then [] else grid_data (mygrid a))
           ++ task_values pbcDistance realToScaled a' f
                (seq 0 (length (fullTaskList a')))).
Proof.
  split.
  - intros H. unfold MultiColvarDensity_ctor.
    apply Nat.eqb_neq in H. rewrite H. reflexivity.
  - intros Hp H.
    destruct (update_processed_Ok a f a' Hp H)
      as (g & Hg & Ho & _ & _ & _ & _ & _ & _ & _ & _ & _ & _ & Hdata).
    destruct (bind_or_check_Ok a f g Hg) as (_ & _ & Hgd).
    split; [exact Ho|]. rewrite Hdata, Hgd. reflexivity.
Qed.

(** *** What a successful constructor leaves *)

Lemma ctor_Ok ao a :
  ctor ao = Ok a ->
  exists dirs conf lo hi,
    parse_DIR (DIR ao) = Ok dirs
    /\ confine_axes epsilon ao dirs = Ok (conf, lo, hi)
    /\ directions a = dirs /\ confined a = conf
    /\ cmin a = lo /\ cmax a = hi
    /\ fractional a = FRACTIONAL ao
    /\ single_run a = true
    /\ mycolv_isDensity a = DATA_isDensity ao
    /\ nbins a = NBINS ao /\ gspacing a = SPACING ao
    /\ grid_options (mygrid a) = make_vstring ao dirs conf
    /\ getNorm (mygrid a) = 0
    /\ wasreset (mygrid a) = true
    /\ grid_data (mygrid a) = [].
Proof.
  unfold MultiColvarDensity_ctor. intros H.
  destruct (negb (length (ORIGIN ao) =? 1)%nat); [discriminate|].
  destruct (negb (DATA_is_multicolvar ao)); [discriminate|].
  apply bind_Ok_inv in H as (dirs & Hdirs & H).
  destruct (negb (length (NBINS ao) =? length dirs)%nat
            && negb (length (SPACING ao) =? length dirs)%nat);
    [discriminate|].
  apply bind_Ok_inv in H as ([[conf lo] hi] & Hconf & H).
  exists dirs, conf, lo, hi. injection H as <-.
  destruct (DATA_isDensity ao), (FRACTIONAL ao), (usingNaturalUnits ao);
    cbn; repeat split; assumption.
Qed.

(** *** The normalisation over a run *)

Lemma processed_single_run a b f :
  single_run a = single_run b -> processed a f = processed b f.
Proof. unfold processed. intros ->. reflexivity. Qed.

Lemma processed_steps_single_run a b steps :
  single_run a = single_run b ->
  processed_steps a steps = processed_steps b steps.
Proof.
  intros H. unfold processed_steps. f_equal.
  apply list_filter_iff. intros [c f]. simpl.
  rewrite (processed_single_run a b f H). reflexivity.
Qed.

Lemma update_density_norm a f a' :
  mycolv_isDensity a = true -> processed a f = true ->
  update_ a f = Ok a' ->
  getNorm (mygrid a')
  = 1 + (if wasreset (mygrid a) then 0 else getNorm (mygrid a)).
Proof.
  intros Hd Hp H.
  destruct (update_processed_Ok a f a' Hp H)
    as (g & Hg & _ & _ & _ & _ & _ & _ & Hn & _).
  destruct (bind_or_check_Ok a f g Hg) as (_ & Hgn & _).
  rewrite Hn, Hd, Hgn. reflexivity.
Qed.

Lemma run_density_norm steps :
  forall a a',
    mycolv_isDensity a = true ->
    (wasreset (mygrid a) = true -> getNorm (mygrid a) == 0) ->
    Forall (fun s : bool * Frame => s.1 = false) steps ->
    run_ a steps = Ok a' ->
    getNorm (mygrid a')
    == getNorm (mygrid a) + inject_Z (Z.of_nat (processed_steps a steps)).
Proof.
  induction steps as [|[cleared f] rest IH]; intros a a' Hd Hinv Hno Hrun.
  - injection Hrun as <-. unfold processed_steps. simpl. ring.
  - apply Forall_cons in Hno as [Hc Hno]. simpl in Hc. subst cleared.
    cbn [run] in Hrun. apply bind_Ok_inv in Hrun as (a1 & Hstep & Hrun).
    unfold processed_steps. rewrite filter_cons. cbn [snd].
    fold (processed_steps a rest).
    destruct (processed a f) eqn:Hp.
    + rewrite decide_True by reflexivity. cbn [length].
      destruct (update_processed_Ok a f a1 Hp Hstep)
        as (g & _ & _ & Hs & Hd1 & _ & _ & Hw1 & _).
      pose proof (update_density_norm a f a1 Hd Hp Hstep) as Hn1.
      rewrite Hd in Hd1.
      rewrite (IH a1 a' Hd1) by
        (try assumption; intros Hw; rewrite Hw1 in Hw; discriminate).
      rewrite (processed_steps_single_run a1 a rest Hs), Hn1.
      rewrite Nat2Z.inj_succ, <- Z.add_1_r, inject_Z_plus.
      change (inject_Z 1) with 1. unfold processed_steps.
      destruct (wasreset (mygrid a)).
      * rewrite (Hinv eq_refl). ring.
      * ring.
    + rewrite decide_False by discriminate.
      assert (Heq : a1 = a).
      { unfold update, processed in *. apply negb_false_iff in Hp.
        rewrite Hp in Hstep. injection Hstep as <-. reflexivity. }
      subst a1. apply (IH a a'); assumption.
Qed.

(** C3. On a density grid a processed step sets the normalisation to one
    more than the grid held when the tasks were about to run, whatever
    the number of stored values; and from the constructor, where it is
    set to 0, a run in which the store never signals a clearing ends with
    a normalisation equal to the number of processed steps.  ([use_all]
    true is the value the constructor gives to [single_run].) *)
Theorem density_normalization_counts_processed_steps
    ao a0 use_all astride steps a f a1 a' :
  (mycolv_isDensity a = true -> processed a f = true ->
   update_ a f = Ok a1 ->
   getNorm (mygrid a1)
   = 1 + (if wasreset (mygrid a) then 0 else getNorm (mygrid a)))
  /\ (ctor ao = Ok a0 -> DATA_isDensity ao = true ->
      Forall (fun s : bool * Frame => s.1 = false) steps ->
      run_ (setAnalysisStride use_all astride a0) steps = Ok a' ->
      getNorm (mygrid a0) = 0
      /\ getNorm (mygrid a')
         == inject_Z (Z.of_nat
              (processed_steps (setAnalysisStride use_all astride a0) steps))).
Proof.
  split.
  - apply update_density_norm.
  - intros Hc Hd Hno Hrun.
    destruct (ctor_Ok ao a0 Hc)
      as (dirs & conf & lo & hi & _ & _ & _ & _ & _ & _ & _ & _ & Hd0 & _ & _
          & _ & Hn0 & _).
    split; [exact Hn0|].
    rewrite (run_density_norm steps (setAnalysisStride use_all astride a0) a').
    + cbn. rewrite Hn0. ring.
    + cbn. rewrite Hd0. exact Hd.
    + intros _. cbn. rewrite Hn0. reflexivity.
    + exact Hno.
    + exact Hrun.
Qed.

(** *** Binding the grid *)

Lemma lookup_total_fmap_seq {A} `{!Inhabited A} (g : nat -> A) (n i : nat) :
  (i < n)%nat -> (g <$> seq 0 n) !!! i = g i.
Proof.
  intros Hi. apply list_lookup_total_correct.
  rewrite list_lookup_fmap, lookup_seq_lt by exact Hi. reflexivity.
Qed.

Lemma rebind_bounds_Ok a f :
  (fractional a = false -> isOrthorombic f = true) ->
  exists mins maxs,
    rebind_bounds a f = Ok (mins, maxs)
    /\ length mins = length (directions a)
    /\ length maxs = length (directions a)
    /\ forall i : nat, (i < length (directions a))%nat ->
         let extent :=
           tget (getBox f) (directions a !!! i) (directions a !!! i) in
         if fractional a then mins !!! i = -0.5 /\ maxs !!! i = 0.5
         else if (confined a !!! i : bool)
              then mins !!! i = cmin a !!! i /\ maxs !!! i = cmax a !!! i
              else mins !!! i == - (extent / 2) /\ maxs !!! i == extent / 2.
Proof.
  intros Ho. unfold rebind_bounds.
  destruct (fractional a) eqn:Hf; cbn [negb].
  - eexists _, _. split; [reflexivity|].
    rewrite !length_replicate. do 2 (split; [reflexivity|]).
    intros i Hi.
    split; apply lookup_total_replicate_2; assumption.
  - rewrite (Ho eq_refl). cbn [negb].
    eexists _, _. split; [reflexivity|].
    rewrite !length_fmap, !length_seq. do 2 (split; [reflexivity|]).
    intros i Hi. cbv zeta.
    rewrite !lookup_total_fmap_seq by assumption.
    destruct (confined a !!! i); cbn [negb]; [split; reflexivity|].
    rewrite !lookup_total_replicate_2 by assumption.
    split; field.
Qed.

(** C7. A processed step that finds the grid unbound or reset computes
    the bounds [-0.5, 0.5] on every axis in fractional mode; otherwise
    minus and plus half the diagonal entry of the box on an unconfined
    axis and the configured lower and upper values on a confined one; it
    then empties the grid and binds it with these bounds and the
    configured bins, so that the grid holds the data of this step only.
    (Outside fractional mode the step needs an orthorhombic cell.) *)
Theorem bounds_when_grid_is_bound_anew a f :
  processed a f = true -> wasreset (mygrid a) = true ->
  (fractional a = false -> isOrthorombic f = true) ->
  exists a' mins maxs,
    update_ a f = Ok a'
    /\ length mins = length (directions a)
    /\ length maxs = length (directions a)
    /\ (forall i : nat, (i < length (directions a))%nat ->
          let extent :=
            tget (getBox f) (directions a !!! i) (directions a !!! i) in
          if fractional a then mins !!! i = -0.5 /\ maxs !!! i = 0.5
          else if (confined a !!! i : bool)
               then mins !!! i = cmin a !!! i /\ maxs !!! i = cmax a !!! i
               else mins !!! i == - (extent / 2) /\ maxs !!! i == extent / 2)
    /\ grid_min (mygrid a') = convert_to_string <$> mins
    /\ grid_max (mygrid a') = convert_to_string <$> maxs
    /\ grid_nbins (mygrid a') = nbins a
    /\ grid_spacing (mygrid a') = gspacing a
    /\ wasreset (mygrid a') = false
    /\ getNorm (mygrid a') = (if mycolv_isDensity a then 1 + 0 else 0)
    /\ grid_data (mygrid a')
       = task_values pbcDistance realToScaled a' f
           (seq 0 (length (fullTaskList a'))).
Proof.
  intros Hp Hw Ho.
  destruct (rebind_bounds_Ok a f Ho) as (mins & maxs & Hb & Hlmin & Hlmax & Hspec).
  assert (Hg : bind_or_check epsilon convert_to_string convert_to_double a f
               = Ok (setBounds (convert_to_string <$> mins)
                       (convert_to_string <$> maxs) (nbins a) (gspacing a)
                       (clear (mygrid a)))).
  { unfold bind_or_check. rewrite Hw, Hb. reflexivity. }
  assert (Hu : exists a', update_ a f = Ok a').
  { rewrite (update_processed a f Hp). unfold process_frame.
    rewrite Hg. eexists; reflexivity. }
  destruct Hu as [a' Hu]. exists a', mins, maxs.
  destruct (update_processed_Ok a f a' Hp Hu)
    as (g & Hg' & _ & _ & _ & _ & _ & Hw' & Hn & Hmin & Hmax & Hnb & Hsp & Hd).
  rewrite Hg in Hg'. injection Hg' as <-.
  repeat split; assumption.
Qed.

(** *** The check of the box on a bound grid *)

Lemma for_each_guard (idx : list nat) (bad : nat -> bool) (msg : string) :
  for_each idx (fun i => if bad i then Error msg else Ok tt)
  = if existsb bad idx then Error msg else Ok tt.
Proof.
  induction idx as [|i rest IH]; [reflexivity|].
  cbn [for_each existsb]. destruct (bad i); [reflexivity|].
  cbn. exact IH.
Qed.

(** The check covers every configured axis, confined or not, in
    fractional mode or not: the step fails exactly when twice the upper
    bound of the grid on some axis is further than the tolerance from
    the diagonal entry of the box. *)
Lemma box_check_on_every_axis a f :
  processed a f = true -> wasreset (mygrid a) = false ->
  (update_ a f = Error msg_box_size
   <-> exists i : nat,
         (i < length (directions a))%nat
         /\ epsilon
            < Qabs (2 * convert_to_double (getMax (mygrid a) !!! i)
                    - tget (getBox f) (directions a !!! i) (directions a !!! i)))
  /\ (update_ a f <> Error msg_box_size -> exists a', update_ a f = Ok a').
Proof.
  intros Hp Hw. rewrite (update_processed a f Hp).
  unfold process_frame, bind_or_check, check_box. rewrite Hw.
  rewrite for_each_guard.
  match goal with |- context [existsb ?b ?l] =>
    destruct (existsb b l) eqn:Hex end; cbn.
  - split; [|intros H; contradiction].
    split; [intros _|reflexivity].
    apply existsb_exists in Hex as (i & Hin & Hbad).
    apply in_seq in Hin. apply dlt_spec in Hbad.
    exists i. split; [lia | exact Hbad].
  - split; [|intros _; eexists; reflexivity].
    split; [discriminate|]. intros (i & Hi & Hbad).
    assert (Hex' : existsb
              (fun i : nat =>
                 dlt epsilon
                   (fabs (2 * convert_to_double (getMax (mygrid a) !!! i)
                          - tget (getBox f) (directions a !!! i)
                              (directions a !!! i))))
              (seq 0 (length (directions a))) = true).
    { apply existsb_exists. exists i. split.
      - apply in_seq. lia.
      - apply dlt_spec. exact Hbad. }
    rewrite Hex' in Hex. discriminate.
Qed.

(** *** The value vector of a task *)

Lemma fmap_lookup_total_seq {A B} `{!Inhabited A} (h : A -> B) (l : list A) :
  (fun j : nat => h (l !!! j)) <$> seq 0 (length l) = h <$> l.
Proof.
  apply list_eq. intros i. rewrite !list_lookup_fmap.
  destruct (decide (i < length l)%nat) as [Hi|Hi].
  - rewrite lookup_seq_lt by exact Hi.
    destruct (lookup_lt_is_Some_2 l i Hi) as [x Hx].
    rewrite Hx. cbn. rewrite (list_lookup_total_correct l i x Hx). reflexivity.
  - rewrite lookup_seq_ge, lookup_ge_None_2 by lia. reflexivity.
Qed.

(** The loop [myvals.setValue(1+j, ...)] fills the entries that follow
    the ones already set, in order. *)
Lemma set_values_loop (g : nat -> double) (r m : nat) :
  forall (k : nat) (pre : list double),
    length pre = (1 + k)%nat ->
    foldl (fun mv (j : nat) => <[(1 + j)%nat := g j]> mv)
      (pre ++ replicate (m + r) 0) (seq k m)
    = pre ++ (g <$> seq k m) ++ replicate r 0.
Proof.
  induction m as [|m IH]; intros k pre Hlen; [reflexivity|].
  cbn [seq foldl]. rewrite <- Hlen.
  replace (length pre) with (length pre + 0)%nat at 1 by lia.
  rewrite insert_app_r. cbn [Nat.add replicate].
  change (<[0%nat := g k]> (0 :: replicate (m + r) 0))
    with (g k :: replicate (m + r) 0).
  rewrite (cons_middle (g k) pre), app_assoc.
  rewrite IH by (rewrite length_app; cbn; lia).
  rewrite <- app_assoc. reflexivity.
Qed.

Lemma performTask_layout a f tindex current :
  performTask pbcDistance realToScaled a f tindex current
    (replicate (getNumberOfQuantities a) 0)
  = (retrieveSequentialValue f current !!! 0%nat)
    :: (vget (if fractional a
              then realToScaled (getBox f)
                     (pbcDistance (getBox f) (origin a)
                        (getCentralAtomPos f (getActiveTask f current)))
              else pbcDistance (getBox f) (origin a)
                     (getCentralAtomPos f (getActiveTask f current)))
          <$> directions a)
    ++ [retrieveSequentialValue f current !!! 1%nat].
Proof.
  unfold performTask, getNumberOfQuantities.
  set (fpos := if fractional a then _ else _).
  set (c0 := retrieveSequentialValue f current !!! 0%nat).
  set (c1 := retrieveSequentialValue f current !!! 1%nat).
  replace (length (directions a) + 2)%nat
    with (S (length (directions a) + 1)) by lia.
  cbn [replicate].
  change (<[0%nat := c0]> (0 :: replicate (length (directions a) + 1) 0))
    with ([c0] ++ replicate (length (directions a) + 1) 0).
  rewrite (set_values_loop (fun j => vget fpos (directions a !!! j)) 1
             (length (directions a)) 0 [c0]) by reflexivity.
  rewrite (fmap_lookup_total_seq (vget fpos) (directions a)).
  rewrite app_assoc.
  replace (1 + length (directions a))%nat
    with (length ([c0] ++ (vget fpos <$> directions a)) + 0)%nat
    by (rewrite length_app, length_fmap; cbn; lia).
  rewrite insert_app_r. cbn. reflexivity.
Qed.

Lemma parse_DIR_Ok direction dirs :
  parse_DIR direction = Ok dirs -> dirs ∈ axis_selections.
Proof.
  unfold parse_DIR, axis_selections.
  repeat (destruct (String.eqb direction _);
          [intros [= <-]; rewrite !elem_of_cons;
           repeat ((left; reflexivity) || right)|]).
  discriminate.
Qed.

(** C8. The value vector of a task has one entry for the weight, then
    the coordinates of the configured axes in their configured order,
    read from the displacement between the origin and the particle
    (scaled by the box in fractional mode), and last the value: the
    number of configured axes plus 2 entries, the number
    [getNumberOfQuantities] returns.  The configured axes are 1, 2 or 3
    of x, y and z. *)
Theorem task_value_vector_layout ao a f tindex current :
  let cvals := retrieveSequentialValue f current in
  let apos := pbcDistance (getBox f) (origin a)
                (getCentralAtomPos f (getActiveTask f current)) in
  let fpos := if fractional a then realToScaled (getBox f) apos else apos in
  let myvals := performTask pbcDistance realToScaled a f tindex current
                  (replicate (getNumberOfQuantities a) 0) in
  myvals = cvals !!! 0%nat :: (vget fpos <$> directions a) ++ [cvals !!! 1%nat]
  /\ length myvals = getNumberOfQuantities a
  /\ getNumberOfQuantities a = (length (directions a) + 2)%nat
  /\ myvals !! 0%nat = Some (cvals !!! 0%nat)
  /\ myvals !! (length (directions a) + 1)%nat = Some (cvals !!! 1%nat)
  /\ (forall j d, directions a !! j = Some d ->
        myvals !! (1 + j)%nat = Some (vget fpos d))
  /\ (ctor ao = Ok a ->
      directions a = configured_axes ao
      /\ directions a ∈ axis_selections).
Proof.
  intros cvals apos fpos myvals.
  assert (Hlay : myvals
                 = cvals !!! 0%nat :: (vget fpos <$> directions a)
                   ++ [cvals !!! 1%nat])
    by apply performTask_layout.
  split; [exact Hlay|]. rewrite Hlay. unfold getNumberOfQuantities.
  split; [cbn; rewrite length_app, length_fmap; cbn; lia|].
  split; [reflexivity|]. split; [reflexivity|]. split; [|split].
  - rewrite lookup_cons_ne_0 by lia.
    replace (Init.Nat.pred (length (directions a) + 1))
      with (length (vget fpos <$> directions a) + 0)%nat
      by (rewrite length_fmap; lia).
    rewrite lookup_app_r by lia.
    replace (length (vget fpos <$> directions a) + 0
             - length (vget fpos <$> directions a))%nat with 0%nat by lia.
    reflexivity.
  - intros j d Hj. rewrite lookup_cons_ne_0 by lia.
    change (1 + j)%nat with (S j). rewrite Nat.pred_succ.
    rewrite lookup_app_l
      by (rewrite length_fmap; apply (lookup_lt_Some _ _ _ Hj)).
    rewrite list_lookup_fmap, Hj. reflexivity.
  - intros Hc.
    destruct (ctor_Ok ao a Hc) as (dirs & conf & lo & hi & Hd & _ & Hdirs & _).
    unfold configured_axes. rewrite Hd, Hdirs.
    split; [reflexivity|]. apply (parse_DIR_Ok _ _ Hd).
Qed.

(** *** The periodicity flags of the grid *)

Lemma string_app_assoc (s t u : string) : (s +:+ t) +:+ u = s +:+ t +:+ u.
Proof.
  induction s as [|c s IH]; [reflexivity|].
  change (String c ((s +:+ t) +:+ u) = String c (s +:+ t +:+ u)).
  rewrite IH. reflexivity.
Qed.

Lemma string_app_empty_r (s : string) : s +:+ "" = s.
Proof.
  induction s as [|c s IH]; [reflexivity|].
  change (String c (s +:+ "") = String c s). rewrite IH. reflexivity.
Qed.

Lemma pbc_loop (rest : list bool) :
  forall (pre : list bool) (s : string),
    foldl (fun s (i : nat) =>
             s +:+ (if (pre ++ rest) !!! i : bool then ",F" else ",T"))
      s (seq (length pre) (length rest))
    = s +:+ further_flags rest.
Proof.
  induction rest as [|c rest IH]; intros pre s.
  - cbn. rewrite string_app_empty_r. reflexivity.
  - cbn [length seq foldl further_flags].
    rewrite list_lookup_total_middle by reflexivity.
    pose proof (IH (pre ++ [c])) as IH'.
    rewrite <- app_assoc, length_app in IH'. cbn [length app] in IH'.
    replace (length pre + 1)%nat with (S (length pre)) in IH' by lia.
    rewrite IH', string_app_assoc. reflexivity.
Qed.

Lemma comma_separated_flags (rest : list bool) :
  forall c : bool,
    comma_separated (flag_text (negb c) :: (flag_text <$> (negb <$> rest)))
    = (if c then "F" else "T") +:+ further_flags rest.
Proof.
  induction rest as [|c' rest IH]; intros c.
  - destruct c; reflexivity.
  - rewrite !fmap_cons.
    change (comma_separated (flag_text (negb c) :: ?l))
      with (flag_text (negb c) +:+ "," +:+ comma_separated l).
    rewrite IH. destruct c, c'; reflexivity.
Qed.

Lemma pbc_options_text (conf : list bool) :
  conf <> [] ->
  pbc_options conf (length conf)
  = " PBC=" +:+ periodicity_text (negb <$> conf).
Proof.
  destruct conf as [|c rest]; [contradiction|]. intros _.
  unfold pbc_options. cbn [length]. rewrite Nat.sub_succ, Nat.sub_0_r.
  rewrite (pbc_loop rest [c]). unfold periodicity_text.
  rewrite !fmap_cons, comma_separated_flags.
  change ((c :: rest) !!! 0%nat) with c. destruct c; reflexivity.
Qed.

Lemma confine_axis_Ok ao d c lo hi :
  confine_axis epsilon ao d = Ok (c, lo, hi) ->
  c = axis_reduced ao d
  /\ (c = true ->
      lo = axis_lower ao d /\ hi = axis_upper ao d /\ FRACTIONAL ao = false).
Proof.
  destruct d as [|[|[|d]]]; unfold confine_axis, confine; cbn;
    repeat match goal with
           | |- context [if ?b then _ else _] => destruct b eqn:?
           end;
    intros [= <- <- <-]; repeat split; congruence.
Qed.

Lemma confine_axes_Ok ao :
  forall dirs conf lo hi,
    confine_axes epsilon ao dirs = Ok (conf, lo, hi) ->
    conf = axis_reduced ao <$> dirs
    /\ length lo = length dirs /\ length hi = length dirs
    /\ forall (i d : nat),
         dirs !! i = Some d -> axis_reduced ao d = true ->
         lo !! i = Some (axis_lower ao d)
         /\ hi !! i = Some (axis_upper ao d)
         /\ FRACTIONAL ao = false.
Proof.
  induction dirs as [|d rest IH]; intros conf lo hi H.
  - injection H as <- <- <-. do 3 (split; [reflexivity|]).
    intros i d Hi. discriminate.
  - cbn [confine_axes] in H.
    apply bind_Ok_inv in H as ([[c l] h] & Hd & H).
    apply bind_Ok_inv in H as ([[cs ls] hs] & Hrest & H).
    injection H as <- <- <-.
    destruct (confine_axis_Ok ao d c l h Hd) as (-> & Hc).
    destruct (IH cs ls hs Hrest) as (-> & Hl & Hh & Hi).
    cbn [length]. rewrite Hl, Hh. do 3 (split; [reflexivity|]).
    intros [|i] d' Hd' Hr.
    + injection Hd' as ->. destruct (Hc Hr) as (-> & -> & Hfr).
      repeat split. exact Hfr.
    + apply (Hi i d' Hd' Hr).
Qed.

(** C9. The [PBC] keyword handed to the grid holds, for every configured
    axis in order, [F] when the axis is confined and [T] when it is not,
    fractional mode included; an axis is confined exactly when its
    [REDUCED] flag is given, and a confined axis keeps the configured
    lower and upper values as its bounds. *)
Theorem periodic_exactly_when_unconfined ao a :
  ctor ao = Ok a ->
  confined a = axis_reduced ao <$> directions a
  /\ (exists rest,
        grid_options (mygrid a)
        = (getKeyword_KERNEL ao +:+ " " +:+ getKeyword_BANDWIDTH ao)
          +:+ (" PBC=" +:+ periodicity_text (negb <$> confined a))
          +:+ rest)
  /\ (forall i d : nat,
        directions a !! i = Some d -> axis_reduced ao d = true ->
        cmin a !! i = Some (axis_lower ao d)
        /\ cmax a !! i = Some (axis_upper ao d)
        /\ fractional a = false).
Proof.
  intros Hc.
  destruct (ctor_Ok ao a Hc)
    as (dirs & conf & lo & hi & Hd & Hconf & Hdirs & Hcf & Hlo & Hhi & Hfr & _
        & _ & _ & _ & Hopt & _).
  destruct (confine_axes_Ok ao dirs conf lo hi Hconf) as (Hce & _ & _ & Hb).
  rewrite Hdirs, Hcf, Hlo, Hhi, Hfr, Hopt. split; [exact Hce|]. split.
  - unfold make_vstring.
    assert (Hne : conf <> []).
    { rewrite Hce. pose proof (parse_DIR_Ok _ _ Hd) as Hsel.
      unfold axis_selections in Hsel. rewrite !elem_of_cons in Hsel.
      destruct Hsel as [->|[->|[->|[->|[->|[->|[->|Hsel]]]]]]];
        try discriminate. apply elem_of_nil in Hsel. contradiction. }
    assert (Hlen : length dirs = length conf)
      by (rewrite Hce, length_fmap; reflexivity).
    rewrite Hlen, (pbc_options_text conf Hne).
    destruct (NOMEMORY ao), (UNORMALIZED ao); eexists;
      rewrite ?string_app_assoc; reflexivity.
  - exact Hb.
Qed.

End Properties.

(** ** The properties on the sample run *)

Section Examples.

Import Sample.

(** C1, counterexample: fractional mode, a sheared cell, the grid still
    unbound: the constructor accepts the input line and [update]
    processes the step. *)
Lemma fractional_sheared_cell_is_processed :
  construct fractional_x = Ok (built fractional_x)
  /\ fractional (built fractional_x) = true
  /\ isOrthorombic (frame 0 (sheared 2) false) = false
  /\ step (built fractional_x) (frame 0 (sheared 2) false)
     = Ok (after (built fractional_x) [(false, frame 0 (sheared 2) false)])
  /\ ~ is_error (step (built fractional_x) (frame 0 (sheared 2) false)).
Proof.
  do 4 (split; [vm_compute; reflexivity|]).
  intros [msg H]. vm_compute in H. discriminate.
Qed.

Lemma non_orthorhombic_rejected_when_binding_in_box_units_witness :
  step (built box_x) (frame 0 (sheared 2) false) = Error msg_not_orthorhombic
  /\ step (built fractional_x) (with_isOrthorombic true (frame 0 (sheared 2) false))
     = step (built fractional_x) (frame 0 (sheared 2) false).
Proof.
  split.
  - apply (proj1 (non_orthorhombic_rejected_when_binding_in_box_units
                    epsilon convert_to_string convert_to_double pbcDistance
                    realToScaled (built box_x) (frame 0 (sheared 2) false)));
      vm_compute; reflexivity.
  - apply (proj2 (non_orthorhombic_rejected_when_binding_in_box_units
                    epsilon convert_to_string convert_to_double pbcDistance
                    realToScaled (built fractional_x)
                    (frame 0 (sheared 2) false))).
    vm_compute; reflexivity.
Defined.

(** C2, at the failing input: fractional mode along x in a cubic box of
    side 2 that never changes.  The first step binds the grid with the
    bounds [-0.5, 0.5]; at the second step the check of the box compares
    2 * 0.5 with the side of the box and stops the run with the message
    that advises fractional coordinates. *)
Theorem fixed_box_fails_check_in_fractional_mode :
  construct fractional_x = Ok (built fractional_x)
  /\ fractional (built fractional_x) = true
  /\ step (built fractional_x) (frame 0 (cubic 2) true)
     = Ok (after (built fractional_x) [(false, frame 0 (cubic 2) true)])
  /\ wasreset (mygrid (after (built fractional_x) [(false, frame 0 (cubic 2) true)]))
     = false
  /\ step (after (built fractional_x) [(false, frame 0 (cubic 2) true)])
       (frame 1 (cubic 2) true)
     = Error msg_box_size.
Proof. repeat split; vm_compute; reflexivity. Qed.

(** The same check on a confined axis: x confined to [0, 1] in a cubic
    box of side 3 that never changes. *)
Lemma fixed_box_fails_check_on_confined_axis :
  steps (built confined_x)
    [(false, frame 0 (cubic 3) true); (false, frame 1 (cubic 3) true)]
  = Error msg_box_size.
Proof. vm_compute. reflexivity. Qed.

(** C4, counterexample: a single aggregate run ([single_run] as the
    constructor leaves it) at step 0: [update] does not return at its
    first line, it binds the grid, counts the frame and adds the two
    value vectors of the step. *)
Lemma single_run_processes_step_zero :
  single_run (built box_x) = true
  /\ getStep (frame 0 (cubic 2) true) = 0%nat
  /\ grid_data (mygrid (built box_x)) = []
  /\ exists a',
       step (built box_x) (frame 0 (cubic 2) true) = Ok a'
       /\ getNorm (mygrid a') = 1
       /\ grid_data (mygrid a') = [[1; -0.250; 1]; [1; 0.250; 1]].
Proof.
  do 3 (split; [vm_compute; reflexivity|]).
  eexists. split; [vm_compute; reflexivity|].
  split; vm_compute; reflexivity.
Qed.

Lemma initial_step_skipped_only_when_windowed_witness :
  step (setAnalysisStride false 1 (built box_x)) (frame 0 (cubic 2) true)
  = Ok (setAnalysisStride false 1 (built box_x))
  /\ step (built box_x) (frame 0 (cubic 2) true)
     = process_frame epsilon convert_to_string convert_to_double pbcDistance
         realToScaled (built box_x) (frame 0 (cubic 2) true).
Proof.
  split.
  - apply (proj1 (initial_step_skipped_only_when_windowed
                    epsilon convert_to_string convert_to_double pbcDistance
                    realToScaled (setAnalysisStride false 1 (built box_x))
                    (frame 0 (cubic 2) true)));
      vm_compute; reflexivity.
  - apply (proj2 (initial_step_skipped_only_when_windowed
                    epsilon convert_to_string convert_to_double pbcDistance
                    realToScaled (built box_x) (frame 0 (cubic 2) true))).
    left. vm_compute. reflexivity.
Defined.

Lemma confinement_with_fractional_rejected_witness :
  is_error (construct (options "x" true true (Some 0) (Some 1))).
Proof.
  apply (confinement_with_fractional_rejected epsilon
           (options "x" true true (Some 0) (Some 1)) 0%nat).
  - reflexivity.
  - apply list_elem_of_here.
  - reflexivity.
Defined.

Lemma incomplete_or_degenerate_setup_rejected_witness :
  is_error (construct (with_NBINS [] box_x))
  /\ is_error (construct (options "x" false true (Some 1) (Some 1))).
Proof.
  split.
  - apply (incomplete_or_degenerate_setup_rejected epsilon (with_NBINS [] box_x)).
    left. split; vm_compute; discriminate.
  - apply (incomplete_or_degenerate_setup_rejected epsilon
             (options "x" false true (Some 1) (Some 1))).
    right. exists 0%nat. split; [apply list_elem_of_here|].
    split; vm_compute; reflexivity.
Defined.

Lemma density_normalization_counts_processed_steps_witness :
  getNorm (mygrid (after (built box_x) [(false, frame 0 (cubic 2) true)])) = 1
  /\ getNorm (mygrid (built box_x)) = 0
  /\ getNorm (mygrid (after (setAnalysisStride true 1 (built box_x)) three_steps))
     == 3.
Proof.
  destruct (density_normalization_counts_processed_steps
              epsilon convert_to_string convert_to_double pbcDistance
              realToScaled box_x (built box_x) true 1%nat three_steps
              (built box_x) (frame 0 (cubic 2) true)
              (after (built box_x) [(false, frame 0 (cubic 2) true)])
              (after (setAnalysisStride true 1 (built box_x)) three_steps))
    as [Hstep Hrun].
  split.
  - rewrite Hstep by (vm_compute; reflexivity). vm_compute. reflexivity.
  - apply Hrun.
    + vm_compute. reflexivity.
    + reflexivity.
    + repeat constructor.
    + vm_compute. reflexivity.
Defined.

Lemma bounds_when_grid_is_bound_anew_witness :
  exists a',
    step (built box_x) (frame 0 (cubic 2) true) = Ok a'
    /\ grid_nbins (mygrid a') = [10%nat]
    /\ wasreset (mygrid a') = false
    /\ getNorm (mygrid a') = 1 + 0.
Proof.
  destruct (bounds_when_grid_is_bound_anew
              epsilon convert_to_string convert_to_double pbcDistance
              realToScaled (built box_x) (frame 0 (cubic 2) true))
    as (a' & mins & maxs & Hu & _ & _ & _ & _ & _ & Hnb & _ & Hw & Hn & _).
  - vm_compute. reflexivity.
  - vm_compute. reflexivity.
  - intros _. reflexivity.
  - exists a'. repeat split; assumption.
Defined.

Lemma task_value_vector_layout_witness :
  performTask pbcDistance realToScaled (built fractional_xz)
    (frame 0 (cubic 2) true) 0 0
    (replicate (getNumberOfQuantities (built fractional_xz)) 0)
  = [1; (0.25 - 0) / 2; (0.25 - 0) / 2; 1]
  /\ directions (built fractional_xz) ∈ axis_selections.
Proof.
  destruct (task_value_vector_layout epsilon pbcDistance realToScaled
              fractional_xz (built fractional_xz) (frame 0 (cubic 2) true)
              0%nat 0%nat)
    as (Hlay & _ & _ & _ & _ & _ & Hdirs).
  split.
  - rewrite Hlay. reflexivity.
  - apply Hdirs. vm_compute. reflexivity.
Defined.

Lemma periodic_exactly_when_unconfined_witness :
  confined (built confined_x) = [true]
  /\ cmin (built confined_x) !! 0%nat = Some 0
  /\ cmax (built confined_x) !! 0%nat = Some 1.
Proof.
  destruct (periodic_exactly_when_unconfined epsilon confined_x
              (built confined_x))
    as (Hconf & _ & Hb).
  - vm_compute. reflexivity.
  - split; [rewrite Hconf; reflexivity|].
    destruct (Hb 0%nat 0%nat) as (Hlo & Hhi & _); [reflexivity..|].
    split; assumption.
Defined.

Lemma single_origin_read_at_every_step_witness :
  construct (with_ORIGIN [1; 2]%nat box_x) = Error msg_one_atom
  /\ origin (after (built box_x) [(false, frame 0 (cubic 2) true)])
     = mkVector 0.5 0.5 0.5.
Proof.
  destruct (single_origin_read_at_every_step
              epsilon convert_to_string convert_to_double pbcDistance
              realToScaled (with_ORIGIN [1; 2]%nat box_x) (built box_x)
              (frame 0 (cubic 2) true)
              (after (built box_x) [(false, frame 0 (cubic 2) true)]))
    as [Hctor Hstep].
  split.
  - apply Hctor. vm_compute. discriminate.
  - destruct Hstep as [Ho _]; [vm_compute; reflexivity..|].
    rewrite Ho. reflexivity.
Defined.

End Examples.

(** ** Further properties of the constructor *)

Section Constructor.

Variable epsilon : double.

Abbreviation ctor := (MultiColvarDensity_ctor epsilon).


Lemma axis_selection_shape (dirs : list nat) :
  dirs ∈ axis_selections ->
  (1 <= length dirs <= 3)%nat
  /\ StronglySorted lt dirs
  /\ Forall (fun d : nat => (d < 3)%nat) dirs.
Proof.
  unfold axis_selections. rewrite !elem_of_cons.
  intros [H|[H|[H|[H|[H|[H|[H|H]]]]]]];
    try (apply elem_of_nil in H; contradiction);
    subst dirs; (split; [cbn; lia|]);
    split; repeat constructor; lia.
Qed.







End Constructor.

(** ** Further properties of [update] and of runs *)

Section Steps.

Variable epsilon : double.
Variable convert_to_string : double -> string.
Variable convert_to_double : string -> double.
Variable pbcDistance : Tensor -> Vector -> Vector -> Vector.
Variable realToScaled : Tensor -> Vector -> Vector.

Abbreviation ctor := (MultiColvarDensity_ctor epsilon).
Abbreviation update_ :=
  (update epsilon convert_to_string convert_to_double pbcDistance realToScaled).
Abbreviation run_ :=
  (run epsilon convert_to_string convert_to_double pbcDistance realToScaled).
Abbreviation bind_or_check_ :=
  (bind_or_check epsilon convert_to_string convert_to_double).

(** *** The two ways a step can end well *)

Lemma update_cases a f a' :
  update_ a f = Ok a' ->
  (processed a f = false /\ a' = a)
  \/ (processed a f = true
      /\ exists g, bind_or_check_ a f = Ok g
                   /\ a' = runAllTasks pbcDistance realToScaled
                             (before_tasks a f g) f).
Proof.
  intros H. destruct (processed a f) eqn:Hp.
  - right. split; [reflexivity|].
    rewrite (update_processed _ _ _ _ _ a f Hp) in H.
    apply process_frame_Ok in H. exact H.
  - left. split; [reflexivity|].
    unfold update, processed in *. apply negb_false_iff in Hp.
    rewrite Hp in H. injection H as <-. reflexivity.
Qed.

Lemma bind_or_check_grid a f g :
  bind_or_check_ a f = Ok g ->
  (wasreset (mygrid a) = false /\ g = mygrid a)
  \/ (wasreset (mygrid a) = true
      /\ exists mins maxs,
           rebind_bounds a f = Ok (mins, maxs)
           /\ g = setBounds (convert_to_string <$> mins)
                    (convert_to_string <$> maxs) (nbins a) (gspacing a)
                    (clear (mygrid a))).
Proof.
  unfold bind_or_check. destruct (wasreset (mygrid a)); intros H.
  - right. split; [reflexivity|].
    apply bind_Ok_inv in H as ([mins maxs] & Hb & H). injection H as <-.
    exists mins, maxs. split; [exact Hb | reflexivity].
  - left. split; [reflexivity|].
    apply bind_Ok_inv in H as (u & _ & H). injection H as <-. reflexivity.
Qed.

Lemma rebind_bounds_length a f mins maxs :
  rebind_bounds a f = Ok (mins, maxs) ->
  length mins = length (directions a) /\ length maxs = length (directions a).
Proof.
  unfold rebind_bounds.
  destruct (fractional a); cbn [negb].
  - intros [= <- <-]. rewrite !length_replicate. split; reflexivity.
  - destruct (isOrthorombic f); cbn [negb]; [|discriminate].
    intros [= <- <-]. rewrite !length_fmap, !length_seq. split; reflexivity.
Qed.

Lemma set_flags_length (idx : list nat) :
  forall fl : list bool,
    length (foldl (fun fl (i : nat) => <[i := true]> fl) fl idx) = length fl.
Proof.
  induction idx as [|i idx IH]; intros fl; [reflexivity|].
  cbn [foldl]. rewrite IH. apply length_insert.
Qed.

Lemma activate_tasks_length a f :
  length (activate_tasks a f) = length (fullTaskList a).
Proof.
  unfold activate_tasks. rewrite set_flags_length. apply length_replicate.
Qed.

(** *** What a run keeps *)

Lemma same_configuration_refl a : same_configuration a a.
Proof. unfold same_configuration. repeat split. Qed.

Lemma same_configuration_trans a b c :
  same_configuration a b -> same_configuration b c -> same_configuration a c.
Proof.
  unfold same_configuration.
  intros (H1 & H2 & H3 & H4 & H5 & H6 & H7 & H8 & H9 & H10 & H11 & H12 & H13
          & H14 & H15)
         (K1 & K2 & K3 & K4 & K5 & K6 & K7 & K8 & K9 & K10 & K11 & K12 & K13
          & K14 & K15).
  repeat split; congruence.
Qed.

Lemma update_same_configuration a f a' :
  update_ a f = Ok a' -> same_configuration a a'.
Proof.
  intros H. destruct (update_cases a f a' H) as [[_ ->]|(_ & g & Hg & ->)].
  - apply same_configuration_refl.
  - rewrite runAllTasks_spec. unfold same_configuration, before_tasks.
    destruct (bind_or_check_grid a f g Hg)
      as [[_ ->]|(_ & mins & maxs & _ & ->)];
      destruct (mycolv_isDensity a) eqn:Hd; cbn; rewrite ?Hd; cbn;
      repeat split; exact Hd.
Qed.

Lemma ctor_well_formed ao a : ctor ao = Ok a -> well_formed a.
Proof.
  intros Hc.
  destruct (ctor_Ok epsilon ao a Hc)
    as (dirs & conf & lo & hi & Hd & Hconf & Hdirs & Hcf & Hlo & Hhi & Hfr & _
        & _ & _ & _ & _ & _ & Hw & _).
  destruct (confine_axes_Ok epsilon ao dirs conf lo hi Hconf)
    as (Hce & Hll & Hlh & Hb).
  unfold well_formed. rewrite Hdirs, Hcf, Hlo, Hhi, Hfr, Hw.
  split; [apply (parse_DIR_Ok _ _ Hd)|].
  split; [rewrite Hce; apply length_fmap|].
  split; [exact Hll|]. split; [exact Hlh|].
  split.
  { intros Hf. rewrite Hce. apply Forall_fmap, Forall_forall.
    intros d Hin. cbn. destruct (axis_reduced ao d) eqn:Hr; [|reflexivity].
    apply list_elem_of_lookup in Hin as [i Hi].
    destruct (Hb i d Hi Hr) as (_ & _ & Hf'). congruence. }
  split; [|split; [|discriminate]].
  - unfold MultiColvarDensity_ctor in Hc.
    destruct (negb (length (ORIGIN ao) =? 1)%nat); [discriminate|].
    destruct (negb (DATA_is_multicolvar ao)); [discriminate|].
    rewrite Hd in Hc. cbn [mbind result_bind] in Hc.
    destruct (negb (length (NBINS ao) =? length dirs)%nat
              && negb (length (SPACING ao) =? length dirs)%nat);
      [discriminate|].
    rewrite Hconf in Hc. cbn [mbind result_bind] in Hc.
    injection Hc as <-. cbn. rewrite length_seq. reflexivity.
  - unfold MultiColvarDensity_ctor in Hc.
    destruct (negb (length (ORIGIN ao) =? 1)%nat); [discriminate|].
    destruct (negb (DATA_is_multicolvar ao)); [discriminate|].
    rewrite Hd in Hc. cbn [mbind result_bind] in Hc.
    destruct (negb (length (NBINS ao) =? length dirs)%nat
              && negb (length (SPACING ao) =? length dirs)%nat);
      [discriminate|].
    rewrite Hconf in Hc. cbn [mbind result_bind] in Hc.
    injection Hc as <-. cbn. rewrite length_replicate, length_seq. reflexivity.
Qed.

Lemma update_well_formed a f a' :
  well_formed a -> update_ a f = Ok a' -> well_formed a'.
Proof.
  intros Hwf H.
  destruct (update_cases a f a' H) as [[_ ->]|(_ & g & Hg & ->)];
    [exact Hwf|].
  destruct Hwf as (Hsel & Hc & Hlo & Hhi & Hfr & Hfl & Hfg & Hb).
  rewrite runAllTasks_spec. unfold well_formed, before_tasks.
  assert (Hbg : wasreset g = false
                /\ length (grid_min g) = length (directions a)
                /\ length (grid_max g) = length (directions a)).
  { destruct (bind_or_check_grid a f g Hg)
      as [[Hw ->]|(_ & mins & maxs & Hr & ->)].
    - split; [exact Hw | exact (Hb Hw)].
    - destruct (rebind_bounds_length a f mins maxs Hr) as [Hl1 Hl2].
      cbn. rewrite !length_fmap. repeat split; assumption. }
  destruct Hbg as (Hw & Hmin & Hmax).
  destruct (mycolv_isDensity a) eqn:Hd; cbn; rewrite ?Hd; cbn;
    (split; [exact Hsel|]); (split; [exact Hc|]); (split; [exact Hlo|]);
    (split; [exact Hhi|]); (split; [exact Hfr|]); (split; [exact Hfl|]);
    (split; [apply (activate_tasks_length (set_mygrid g a) f)|]);
    intros _; split; assumption.
Qed.

Lemma run_keeps steps :
  forall a a',
    well_formed a -> run_ a steps = Ok a' ->
    well_formed a' /\ same_configuration a a'.
Proof.
  induction steps as [|[cleared f] rest IH]; intros a a' Hwf Hrun.
  - injection Hrun as <-. split; [exact Hwf | apply same_configuration_refl].
  - cbn [run] in Hrun. apply bind_Ok_inv in Hrun as (a1 & Hstep & Hrun).
    set (a0 := if cleared then set_mygrid (signal_reset (mygrid a)) a else a)
      in Hstep.
    assert (Hwf0 : well_formed a0 /\ same_configuration a a0).
    { subst a0. destruct cleared; [|split; [exact Hwf|apply same_configuration_refl]].
      split.
      - destruct Hwf as (Hsel & Hc & Hlo & Hhi & Hfr & Hfl & Hfg & Hb).
        unfold well_formed; cbn. repeat split; try assumption; discriminate.
      - unfold same_configuration; cbn. repeat split. }
    destruct Hwf0 as [Hwf0 Hsc0].
    pose proof (update_well_formed a0 f a1 Hwf0 Hstep) as Hwf1.
    pose proof (update_same_configuration a0 f a1 Hstep) as Hsc1.
    destruct (IH a1 a' Hwf1 Hrun) as [Hwf' Hsc'].
    split; [exact Hwf'|].
    eapply same_configuration_trans; [exact Hsc0|].
    eapply same_configuration_trans; eassumption.
Qed.

(** X3. An action that the constructor returns is well formed, and its
    axes are one to three of 0, 1 and 2 in strictly increasing order, so
    that a value vector has three to five entries. *)
Theorem constructed_action_is_well_formed ao a :
  ctor ao = Ok a ->
  well_formed a
  /\ (1 <= length (directions a) <= 3)%nat
  /\ StronglySorted lt (directions a)
  /\ Forall (fun d : nat => (d < 3)%nat) (directions a)
  /\ (3 <= getNumberOfQuantities a <= 5)%nat.
Proof.
  intros Hc. pose proof (ctor_well_formed ao a Hc) as Hwf.
  split; [exact Hwf|].
  destruct Hwf as (Hsel & _).
  destruct (axis_selection_shape _ Hsel) as (Hlen & Hsorted & Hlt).
  repeat split; try assumption; unfold getNumberOfQuantities; lia.
Qed.

(** X4. Whatever the steps of a run and the signals of the store, and
    whatever [setAnalysisStride] was told, a run that ends well leaves a
    well-formed action with the configuration the constructor gave it:
    [update] writes nothing but the grid's bounds, normalisation and data,
    the origin and the task flags. *)
Theorem run_keeps_configuration ao a0 use_all astride steps a' :
  ctor ao = Ok a0 ->
  run_ (setAnalysisStride use_all astride a0) steps = Ok a' ->
  well_formed a'
  /\ same_configuration (setAnalysisStride use_all astride a0) a'
  /\ directions a' = configured_axes ao
  /\ confined a' = axis_reduced ao <$> configured_axes ao
  /\ fractional a' = FRACTIONAL ao
  /\ single_run a' = use_all.
Proof.
  intros Hc Hrun. pose proof (ctor_well_formed ao a0 Hc) as Hwf.
  assert (Hwf1 : well_formed (setAnalysisStride use_all astride a0)).
  { destruct Hwf as (Hsel & Hcf & Hlo & Hhi & Hfr & Hfl & Hfg & Hb).
    unfold well_formed; cbn. repeat split; try assumption; apply Hb; assumption. }
  destruct (run_keeps steps _ a' Hwf1 Hrun) as [Hwf' Hsc].
  split; [exact Hwf'|]. split; [exact Hsc|].
  destruct Hsc as (_ & _ & Hf & Hs & _ & _ & _ & Hcf & _ & _ & Hd & _).
  cbn in Hf, Hs, Hcf, Hd.
  destruct (ctor_Ok epsilon ao a0 Hc)
    as (dirs & conf & lo & hi & Hpd & Hconf & Hdirs & Hcf0 & _ & _ & Hfr & _).
  destruct (confine_axes_Ok epsilon ao dirs conf lo hi Hconf) as (Hce & _).
  unfold configured_axes. rewrite Hpd, Hd, Hcf, Hf, Hs, Hdirs, Hcf0, Hfr, Hce.
  repeat split.
Qed.

(** *** The ways a step can fail *)

(** X5. [update] fails in two ways only, each on a step it processes:
    with the message about non-orthorhombic cells, when it binds the grid
    outside fractional mode in a cell that is not orthorhombic; with the
    message about the size of the box, when the grid is bound and twice
    its upper bound on some axis is further than the tolerance from the
    diagonal entry of the box. *)
Theorem update_fails_in_two_ways a f msg :
  update_ a f = Error msg ->
  processed a f = true
  /\ ((msg = msg_not_orthorhombic
       /\ wasreset (mygrid a) = true
       /\ fractional a = false
       /\ isOrthorombic f = false)
      \/ (msg = msg_box_size
          /\ wasreset (mygrid a) = false
          /\ exists i : nat,
               (i < length (directions a))%nat
               /\ epsilon
                  < Qabs (2 * convert_to_double (getMax (mygrid a) !!! i)
                          - tget (getBox f) (directions a !!! i)
                              (directions a !!! i)))).
Proof.
  intros H. destruct (processed a f) eqn:Hp.
  2: { unfold update, processed in *. apply negb_false_iff in Hp.
       rewrite Hp in H. discriminate. }
  split; [reflexivity|].
  destruct (wasreset (mygrid a)) eqn:Hw.
  - left. rewrite (update_processed _ _ _ _ _ a f Hp) in H.
    unfold process_frame, bind_or_check, rebind_bounds in H. rewrite Hw in H.
    destruct (fractional a); cbn in H; [discriminate|].
    destruct (isOrthorombic f); cbn in H; [discriminate|].
    injection H as <-. repeat split.
  - right.
    destruct (box_check_on_every_axis epsilon convert_to_string
                convert_to_double pbcDistance realToScaled a f Hp Hw)
      as [Hiff Hok].
    assert (Hmsg : msg = msg_box_size).
    { rewrite (update_processed _ _ _ _ _ a f Hp) in H.
      unfold process_frame, bind_or_check, check_box in H. rewrite Hw in H.
      rewrite for_each_guard in H.
      match type of H with context [existsb ?b ?l] =>
        destruct (existsb b l) end; cbn in H; [|discriminate].
      injection H as <-. reflexivity. }
    subst msg. split; [reflexivity|]. split; [reflexivity|].
    apply Hiff. exact H.
Qed.

(** *** A bound grid *)

Lemma update_bound_grid a f a' :
  wasreset (mygrid a) = false -> update_ a f = Ok a' ->
  wasreset (mygrid a') = false
  /\ grid_min (mygrid a') = grid_min (mygrid a)
  /\ grid_max (mygrid a') = grid_max (mygrid a)
  /\ grid_nbins (mygrid a') = grid_nbins (mygrid a)
  /\ grid_spacing (mygrid a') = grid_spacing (mygrid a)
  /\ (exists added, grid_data (mygrid a') = grid_data (mygrid a) ++ added)
  /\ (mycolv_isDensity a = false ->
      getNorm (mygrid a') = getNorm (mygrid a)).
Proof.
  intros Hw H.
  destruct (update_cases a f a' H) as [[_ ->]|(_ & g & Hg & ->)].
  - repeat split; try assumption. exists []. rewrite app_nil_r. reflexivity.
  - destruct (bind_or_check_grid a f g Hg) as [[_ ->]|[Hw' _]];
      [|rewrite Hw in Hw'; discriminate].
    rewrite runAllTasks_spec. unfold before_tasks.
    destruct (mycolv_isDensity a) eqn:Hd; cbn; rewrite ?Hd; cbn;
      repeat split; try assumption; try discriminate;
      eexists; reflexivity.
Qed.

(** X6. Once the grid is bound, a run in which the store signals no
    clearing never changes its bounds, bins or spacing, and only adds to
    its data; when the data is not a density it leaves the normalisation
    as it was. *)
Theorem bound_grid_keeps_its_bounds steps :
  forall a a',
    wasreset (mygrid a) = false ->
    Forall (fun s : bool * Frame => s.1 = false) steps ->
    run_ a steps = Ok a' ->
    wasreset (mygrid a') = false
    /\ grid_min (mygrid a') = grid_min (mygrid a)
    /\ grid_max (mygrid a') = grid_max (mygrid a)
    /\ grid_nbins (mygrid a') = grid_nbins (mygrid a)
    /\ grid_spacing (mygrid a') = grid_spacing (mygrid a)
    /\ (exists added, grid_data (mygrid a') = grid_data (mygrid a) ++ added)
    /\ (mycolv_isDensity a = false ->
        getNorm (mygrid a') = getNorm (mygrid a)).
Proof.
  induction steps as [|[cleared f] rest IH]; intros a a' Hw Hno Hrun.
  - injection Hrun as <-. repeat split; try assumption.
    exists []. rewrite app_nil_r. reflexivity.
  - apply Forall_cons in Hno as [Hc Hno]. cbn in Hc. subst cleared.
    cbn [run] in Hrun. apply bind_Ok_inv in Hrun as (a1 & Hstep & Hrun).
    destruct (update_bound_grid a f a1 Hw Hstep)
      as (Hw1 & Hmin1 & Hmax1 & Hnb1 & Hsp1 & [added1 Hd1] & Hn1).
    destruct (update_same_configuration a f a1 Hstep)
      as (_ & _ & _ & _ & Hdens & _).
    destruct (IH a1 a' Hw1 Hno Hrun)
      as (Hw' & Hmin' & Hmax' & Hnb' & Hsp' & [added' Hd'] & Hn').
    split; [exact Hw'|].
    split; [congruence|]. split; [congruence|]. split; [congruence|].
    split; [congruence|]. split.
    + exists (added1 ++ added'). rewrite Hd', Hd1, app_assoc. reflexivity.
    + intros Hd. rewrite Hn' by congruence. apply Hn1. exact Hd.
Qed.

(** *** The normalisation after a clearing *)

Lemma run_app (pre post : list (bool * Frame)) :
  forall a, run_ a (pre ++ post) = run_ a pre ≫= fun a1 => run_ a1 post.
Proof.
  induction pre as [|[cleared f] pre IH]; intros a; [reflexivity|].
  cbn [app run].
  destruct (update_ (if cleared then set_mygrid (signal_reset (mygrid a)) a
                     else a) f) as [a1|msg]; cbn [mbind result_bind];
    [apply IH | reflexivity].
Qed.

Lemma run_same_configuration steps :
  forall a a', run_ a steps = Ok a' -> same_configuration a a'.
Proof.
  induction steps as [|[cleared f] rest IH]; intros a a' Hrun.
  - injection Hrun as <-. apply same_configuration_refl.
  - cbn [run] in Hrun. apply bind_Ok_inv in Hrun as (a1 & Hstep & Hrun).
    eapply same_configuration_trans;
      [|eapply same_configuration_trans;
        [exact (update_same_configuration _ f a1 Hstep) | exact (IH a1 a' Hrun)]].
    destruct cleared; [|apply same_configuration_refl].
    unfold same_configuration; cbn. repeat split.
Qed.

(** X7. On a density grid, when the store signals a clearing at a step
    that [update] processes and no clearing after it, the run ends with a
    normalisation of 1 plus the number of steps processed after that step,
    whatever was accumulated before it. *)
Theorem normalization_restarts_at_a_clearing a pre f post a' :
  mycolv_isDensity a = true ->
  processed a f = true ->
  Forall (fun s : bool * Frame => s.1 = false) post ->
  run_ a (pre ++ (true, f) :: post) = Ok a' ->
  getNorm (mygrid a') == 1 + inject_Z (Z.of_nat (processed_steps a post)).
Proof.
  intros Hd Hp Hno Hrun. rewrite run_app in Hrun.
  apply bind_Ok_inv in Hrun as (a1 & Hpre & Hrun).
  destruct (run_same_configuration pre a a1 Hpre)
    as (_ & _ & _ & Hs1 & Hd1 & _).
  cbn [run] in Hrun. apply bind_Ok_inv in Hrun as (a2 & Hstep & Hrun).
  set (a1r := set_mygrid (signal_reset (mygrid a1)) a1) in Hstep.
  assert (Hp1 : processed a1r f = true)
    by (rewrite <- Hp; apply processed_single_run; exact Hs1).
  assert (Hd1r : mycolv_isDensity a1r = true) by (cbn; congruence).
  pose proof (update_density_norm epsilon convert_to_string convert_to_double
                pbcDistance realToScaled a1r f a2 Hd1r Hp1 Hstep) as Hn2.
  cbn in Hn2.
  destruct (update_processed_Ok epsilon convert_to_string convert_to_double
              pbcDistance realToScaled a1r f a2 Hp1 Hstep)
    as (g & _ & _ & Hs2 & Hd2 & _ & _ & Hw2 & _).
  rewrite (run_density_norm epsilon convert_to_string convert_to_double
             pbcDistance realToScaled post a2 a');
    [|congruence | intros Hw; rewrite Hw2 in Hw; discriminate
     | exact Hno | exact Hrun].
  rewrite Hn2.
  rewrite (processed_steps_single_run a2 a post) by (cbn in Hs2; congruence).
  ring.
Qed.

(** *** The tasks of a step *)

Lemma set_flags_lookup (k : nat) :
  forall (fl : list bool) (i : nat),
    foldl (fun fl (i : nat) => <[i := true]> fl) fl (seq 0 k) !!! i
    = if decide (i < k /\ i < length fl)%nat then true else fl !!! i.
Proof.
  induction k as [|k IH]; intros fl i.
  - cbn. destruct (decide (i < 0 /\ i < length fl)%nat) as [[H _]|_];
      [lia | reflexivity].
  - rewrite seq_S, foldl_app. cbn [foldl Nat.add].
    destruct (decide (i = k)) as [->|Hne].
    + destruct (decide (k < length fl)%nat) as [Hlt|Hge].
      * rewrite list_lookup_total_insert_eq by (rewrite set_flags_length; lia).
        rewrite decide_True by lia. reflexivity.
      * rewrite list_insert_ge by (rewrite set_flags_length; lia).
        rewrite IH.
        rewrite decide_False by lia. rewrite decide_False by lia. reflexivity.
    + rewrite list_lookup_total_insert_ne by congruence. rewrite IH.
      destruct (decide (i < k /\ i < length fl)%nat) as [H|H].
      * rewrite decide_True by lia. reflexivity.
      * rewrite decide_False by lia. reflexivity.
Qed.

Lemma activate_tasks_lookup a f (i : nat) :
  (i < length (fullTaskList a))%nat ->
  activate_tasks a f !!! i = bool_decide (i < getNumberOfStoredValues f)%nat.
Proof.
  intros Hi. unfold activate_tasks. rewrite set_flags_lookup, length_replicate.
  destruct (decide (i < getNumberOfStoredValues f)%nat) as [Hs|Hs].
  - rewrite decide_True by lia. rewrite bool_decide_eq_true_2 by lia.
    reflexivity.
  - rewrite decide_False by lia. rewrite bool_decide_eq_false_2 by lia.
    apply lookup_total_replicate_2. exact Hi.
Qed.

Lemma filter_seq_below (flag : nat -> bool) (k : nat) :
  forall n : nat,
    (forall i, (i < n)%nat -> flag i = bool_decide (i < k)%nat) ->
    filter (fun i : nat => flag i = true) (seq 0 n) = seq 0 (Nat.min k n).
Proof.
  induction n as [|n IH]; intros Hflag.
  - rewrite Nat.min_0_r. reflexivity.
  - rewrite seq_S, filter_app, IH by (intros i Hi; apply Hflag; lia).
    cbn [Nat.add]. rewrite filter_cons, filter_nil.
    rewrite (Hflag n) by lia.
    destruct (decide (n < k)%nat) as [Hlt|Hge].
    + rewrite bool_decide_eq_true_2 by exact Hlt.
      rewrite decide_True by reflexivity.
      replace (Nat.min k (S n)) with (S n) by lia.
      replace (Nat.min k n) with n by lia.
      rewrite seq_S. reflexivity.
    + rewrite bool_decide_eq_false_2 by exact Hge.
      rewrite decide_False by discriminate.
      replace (Nat.min k (S n)) with (Nat.min k n) by lia.
      apply app_nil_r.
Qed.

(** X8. A processed step hands the grid one value vector for each stored
    value, in the order of the store and no more than there are tasks: the
    vector of the stored value [i] is its weight, its coordinates relative
    to the position that the origin atom has at this step, and its value. *)
Theorem step_adds_one_vector_per_stored_value a f a' :
  well_formed a ->
  processed a f = true ->
  update_ a f = Ok a' ->
  grid_data (mygrid a')
  = (if wasreset (mygrid a) then [] else grid_data (mygrid a))
    ++ (value_vector pbcDistance realToScaled (getPosition f 0%nat)
          (fractional a) (directions a) f
        <$> seq 0 (Nat.min (getNumberOfStoredValues f)
                     (length (fullTaskList a)))).
Proof.
  intros Hwf Hp H.
  destruct Hwf as (_ & _ & _ & _ & _ & Hfl & _).
  destruct (update_cases a f a' H) as [[Hp' _]|(_ & g & Hg & ->)];
    [rewrite Hp in Hp'; discriminate|].
  destruct (bind_or_check_Ok epsilon convert_to_string convert_to_double
              a f g Hg) as (_ & _ & Hgd).
  rewrite runAllTasks_spec. unfold task_values.
  set (b := before_tasks a f g).
  assert (Hb : fullTaskList b = fullTaskList a
               /\ taskFlags b = activate_tasks a f
               /\ origin b = getPosition f 0%nat
               /\ fractional b = fractional a
               /\ directions b = directions a
               /\ grid_data (mygrid b) = grid_data g).
  { subst b. unfold before_tasks.
    destruct (mycolv_isDensity a) eqn:Hd; cbn; rewrite ?Hd; cbn;
      repeat split. }
  destruct Hb as (Hb1 & Hb2 & Hb3 & Hb4 & Hb5 & Hb6).
  cbn [mygrid set_mygrid add_data grid_data]. rewrite Hb6, Hgd. f_equal.
  rewrite Hb1, Hb2.
  rewrite (filter_seq_below (fun i => activate_tasks a f !!! i)
             (getNumberOfStoredValues f) (length (fullTaskList a)))
    by (intros i Hi; apply activate_tasks_lookup; exact Hi).
  apply list_fmap_ext. intros j i Hj.
  apply lookup_seq in Hj as [-> Hlt]. cbn [Nat.add].
  rewrite performTask_layout, Hb3, Hb4, Hb5.
  rewrite Hfl, lookup_total_seq_lt by lia. reflexivity.
Qed.

(** *** The value vector, whatever it held *)

Lemma set_values_block (g : nat -> double) (post : list double) (m : nat) :
  forall (k : nat) (pre mid : list double),
    length pre = (1 + k)%nat -> length mid = m ->
    foldl (fun mv (j : nat) => <[(1 + j)%nat := g j]> mv)
      (pre ++ mid ++ post) (seq k m)
    = pre ++ (g <$> seq k m) ++ post.
Proof.
  induction m as [|m IH]; intros k pre mid Hpre Hmid.
  - destruct mid; [reflexivity | discriminate].
  - destruct mid as [|x mid]; [discriminate|]. injection Hmid as Hmid.
    cbn [seq foldl]. rewrite <- Hpre.
    replace (length pre) with (length pre + 0)%nat at 1 by lia.
    rewrite insert_app_r.
    change (<[0%nat := g k]> ((x :: mid) ++ post)) with (g k :: mid ++ post).
    rewrite (cons_middle (g k) pre), app_assoc.
    rewrite IH by (try rewrite length_app; cbn; lia).
    rewrite <- app_assoc. reflexivity.
Qed.

(** X9. [performTask] writes every entry of a value vector that has the
    length [getNumberOfQuantities] announces: the result is the weight, the
    coordinates and the value of the stored value, and nothing of what the
    vector held before. *)
Theorem performTask_overwrites_every_entry a f tindex current myvals :
  length myvals = getNumberOfQuantities a ->
  performTask pbcDistance realToScaled a f tindex current myvals
  = value_vector pbcDistance realToScaled (origin a) (fractional a)
      (directions a) f current.
Proof.
  unfold getNumberOfQuantities. intros Hlen.
  destruct myvals as [|x0 rest]; [cbn in Hlen; lia|].
  cbn [length] in Hlen.
  assert (Hrest : rest = take (length (directions a)) rest
                         ++ drop (length (directions a)) rest)
    by (symmetry; apply take_drop).
  destruct (drop (length (directions a)) rest) as [|xl tl] eqn:Hdrop.
  { apply (f_equal length) in Hdrop. rewrite length_drop in Hdrop.
    cbn in Hdrop. lia. }
  assert (Htl : tl = []).
  { apply (f_equal length) in Hdrop. rewrite length_drop in Hdrop.
    cbn in Hdrop. destruct tl; [reflexivity | cbn in Hdrop; lia]. }
  subst tl. rewrite Hrest.
  unfold performTask, value_vector.
  set (fpos := if fractional a then _ else _).
  set (c0 := retrieveSequentialValue f current !!! 0%nat).
  set (c1 := retrieveSequentialValue f current !!! 1%nat).
  change (<[0%nat := c0]> (x0 :: ?l)) with ([c0] ++ l).
  rewrite (set_values_block (fun j => vget fpos (directions a !!! j)) [xl]
             (length (directions a)) 0 [c0])
    by (try reflexivity; rewrite length_take; lia).
  rewrite (fmap_lookup_total_seq (vget fpos) (directions a)).
  rewrite app_assoc.
  replace (1 + length (directions a))%nat
    with (length ([c0] ++ (vget fpos <$> directions a)) + 0)%nat
    by (rewrite length_app, length_fmap; cbn; lia).
  rewrite insert_app_r. cbn. reflexivity.
Qed.

(** *** The option string *)

Lemma coordinates_options_text (dirs : list nat) :
  dirs ∈ axis_selections ->
  coordinates_options dirs
  = " COORDINATES=" +:+ comma_separated (coordinate_name <$> dirs).
Proof.
  unfold axis_selections. rewrite !elem_of_cons.
  intros [H|[H|[H|[H|[H|[H|[H|H]]]]]]];
    try (apply elem_of_nil in H; contradiction); subst dirs; reflexivity.
Qed.

(** X10. The option string that the constructor hands to the grid is the
    kernel and bandwidth keywords, one periodicity flag and one coordinate
    name per configured axis in the order of the axes, the component of
    the data, and the two optional flags, in this order. *)
Theorem grid_option_string ao a :
  ctor ao = Ok a ->
  grid_options (mygrid a) = option_string ao (directions a) (confined a)
  /\ length (confined a) = length (directions a).
Proof.
  intros Hc. pose proof (ctor_well_formed ao a Hc) as (Hsel & Hlen & _).
  destruct (ctor_Ok epsilon ao a Hc)
    as (dirs & conf & lo & hi & _ & _ & Hdirs & Hcf & _ & _ & _ & _ & _ & _ & _
        & Hopt & _).
  split; [|exact Hlen].
  rewrite Hopt, <- Hdirs, <- Hcf. unfold make_vstring, option_string.
  rewrite <- Hlen.
  rewrite pbc_options_text.
  2: { intros Hnil. rewrite Hnil in Hlen. cbn in Hlen.
       destruct (axis_selection_shape _ Hsel) as [Hn _]. lia. }
  rewrite (coordinates_options_text _ Hsel).
  destruct (NOMEMORY ao), (UNORMALIZED ao);
    rewrite ?string_app_assoc, ?string_app_empty_r; reflexivity.
Qed.

(** *** The box after the grid is bound *)

Lemma rebind_bounds_upper a f mins maxs :
  rebind_bounds a f = Ok (mins, maxs) ->
  forall i : nat, (i < length (directions a))%nat ->
    maxs !!! i = bound_upper a f i.
Proof.
  unfold rebind_bounds, bound_upper.
  destruct (fractional a); cbn [negb].
  - intros [= <- <-] i Hi. apply lookup_total_replicate_2. exact Hi.
  - destruct (isOrthorombic f); cbn [negb]; [|discriminate].
    intros [= <- <-] i Hi. rewrite lookup_total_fmap_seq by exact Hi.
    destruct (confined a !!! i); cbn [negb]; [reflexivity|].
    rewrite lookup_total_replicate_2 by exact Hi. reflexivity.
Qed.

(** The upper bounds of the grid after a step that bound it. *)
Lemma bound_by_step a f a' :
  processed a f = true -> wasreset (mygrid a) = true ->
  update_ a f = Ok a' ->
  wasreset (mygrid a') = false
  /\ forall i : nat, (i < length (directions a))%nat ->
       getMax (mygrid a') !!! i = convert_to_string (bound_upper a f i).
Proof.
  intros Hp Hw H.
  destruct (update_cases a f a' H) as [[Hp' _]|(_ & g & Hg & ->)];
    [rewrite Hp in Hp'; discriminate|].
  destruct (bind_or_check_grid a f g Hg)
    as [[Hw' _]|(_ & mins & maxs & Hr & ->)];
    [rewrite Hw in Hw'; discriminate|].
  destruct (rebind_bounds_length a f mins maxs Hr) as [_ Hlen].
  rewrite runAllTasks_spec. unfold before_tasks, getMax.
  destruct (mycolv_isDensity a) eqn:Hd; cbn; rewrite ?Hd; cbn;
    (split; [reflexivity|]); intros i Hi;
    rewrite (list_lookup_total_fmap convert_to_string maxs i)
      by (rewrite Hlen; exact Hi);
    rewrite (rebind_bounds_upper a f mins maxs Hr i Hi); reflexivity.
Qed.

Lemma check_after_binding a0 f0 a1 f1 :
  processed a0 f0 = true -> wasreset (mygrid a0) = true ->
  update_ a0 f0 = Ok a1 ->
  processed a1 f1 = true ->
  (forall i : nat, (i < length (directions a0))%nat ->
     convert_to_double (convert_to_string (bound_upper a0 f0 i))
     == bound_upper a0 f0 i) ->
  (update_ a1 f1 = Error msg_box_size
   <-> exists i : nat,
         (i < length (directions a0))%nat
         /\ epsilon
            < Qabs (2 * bound_upper a0 f0 i
                    - tget (getBox f1) (directions a0 !!! i)
                        (directions a0 !!! i)))
  /\ (update_ a1 f1 <> Error msg_box_size -> exists a2, update_ a1 f1 = Ok a2).
Proof.
  intros Hp0 Hw0 H0 Hp1 Hrt.
  destruct (bound_by_step a0 f0 a1 Hp0 Hw0 H0) as [Hw1 Hmax].
  destruct (update_same_configuration a0 f0 a1 H0)
    as (_ & _ & _ & _ & _ & _ & _ & _ & _ & _ & Hdirs & _).
  destruct (box_check_on_every_axis epsilon convert_to_string convert_to_double
              pbcDistance realToScaled a1 f1 Hp1 Hw1) as [Hiff Hok].
  split; [|exact Hok]. rewrite Hiff, Hdirs.
  split; intros (i & Hi & Hlt); exists i; (split; [exact Hi|]).
  - rewrite (Hmax i Hi), (Hrt i Hi) in Hlt. exact Hlt.
  - rewrite (Hmax i Hi), (Hrt i Hi). exact Hlt.
Qed.

(** X11. After a step at [f0] has bound the grid, a later processed step
    at [f1], with no clearing in between, fails with the message about the
    size of the box exactly when, on some configured axis, twice the upper
    bound computed at [f0] (0.5 in fractional mode, the configured upper
    value on a confined axis, half the box otherwise) is further than the
    tolerance from the diagonal entry of the box at [f1]; otherwise it
    succeeds.  The bounds are assumed to survive their conversion to a
    string and back. *)
Theorem box_check_after_binding a0 f0 a1 f1 :
  processed a0 f0 = true -> wasreset (mygrid a0) = true ->
  update_ a0 f0 = Ok a1 ->
  processed a1 f1 = true ->
  (forall i : nat, (i < length (directions a0))%nat ->
     convert_to_double (convert_to_string (bound_upper a0 f0 i))
     == bound_upper a0 f0 i) ->
  (update_ a1 f1 = Error msg_box_size
   <-> exists i : nat,
         (i < length (directions a0))%nat
         /\ epsilon
            < Qabs (2 * bound_upper a0 f0 i
                    - tget (getBox f1) (directions a0 !!! i)
                        (directions a0 !!! i)))
  /\ (update_ a1 f1 <> Error msg_box_size -> exists a2, update_ a1 f1 = Ok a2).
Proof. apply check_after_binding. Qed.

(** X12. Outside fractional mode and with no confined axis, the check
    detects a change of the box: the later step fails exactly when, on
    some configured axis, the diagonal entry of the box differs from the
    one the grid was bound with by more than the tolerance. *)
Theorem box_check_detects_change a0 f0 a1 f1 :
  fractional a0 = false ->
  (forall i : nat, (i < length (directions a0))%nat ->
     (confined a0 !!! i : bool) = false) ->
  processed a0 f0 = true -> wasreset (mygrid a0) = true ->
  update_ a0 f0 = Ok a1 ->
  processed a1 f1 = true ->
  (forall i : nat, (i < length (directions a0))%nat ->
     convert_to_double (convert_to_string (bound_upper a0 f0 i))
     == bound_upper a0 f0 i) ->
  update_ a1 f1 = Error msg_box_size
  <-> exists i : nat,
        (i < length (directions a0))%nat
        /\ epsilon
           < Qabs (tget (getBox f0) (directions a0 !!! i) (directions a0 !!! i)
                   - tget (getBox f1) (directions a0 !!! i)
                       (directions a0 !!! i)).
Proof.
  intros Hf Hconf Hp0 Hw0 H0 Hp1 Hrt.
  destruct (check_after_binding a0 f0 a1 f1 Hp0 Hw0 H0 Hp1 Hrt)
    as [Hiff _].
  rewrite Hiff.
  assert (Hb : forall i : nat, (i < length (directions a0))%nat ->
            2 * bound_upper a0 f0 i
            == tget (getBox f0) (directions a0 !!! i) (directions a0 !!! i)).
  { intros i Hi. unfold bound_upper. rewrite Hf, (Hconf i Hi). field. }
  split; intros (i & Hi & Hlt); exists i; (split; [exact Hi|]).
  - rewrite (Hb i Hi) in Hlt. exact Hlt.
  - rewrite (Hb i Hi). exact Hlt.
Qed.

(** *** A box that does not change *)

Lemma fixed_box_step (B : Tensor) a f :
  0 <= epsilon ->
  fractional a = false ->
  (forall i : nat, (i < length (directions a))%nat ->
     (confined a !!! i : bool) = false) ->
  getBox f = B -> isOrthorombic f = true ->
  (forall i : nat, (i < length (directions a))%nat ->
     convert_to_double
       (convert_to_string
          (0.5 * tget B (directions a !!! i) (directions a !!! i)))
     == 0.5 * tget B (directions a !!! i) (directions a !!! i)) ->
  (wasreset (mygrid a) = false ->
   forall i : nat, (i < length (directions a))%nat ->
     getMax (mygrid a) !!! i
     = convert_to_string
         (0.5 * tget B (directions a !!! i) (directions a !!! i))) ->
  exists a1,
    update_ a f = Ok a1
    /\ (wasreset (mygrid a1) = false ->
        forall i : nat, (i < length (directions a))%nat ->
          getMax (mygrid a1) !!! i
          = convert_to_string
              (0.5 * tget B (directions a !!! i) (directions a !!! i))).
Proof.
  intros Heps Hf Hconf HB Ho Hrt Hinv.
  destruct (processed a f) eqn:Hp.
  2: { exists a. split; [|exact Hinv].
       unfold update, processed in *. apply negb_false_iff in Hp.
       rewrite Hp. reflexivity. }
  assert (Hbu : forall i : nat, (i < length (directions a))%nat ->
            bound_upper a f i
            = 0.5 * tget B (directions a !!! i) (directions a !!! i)).
  { intros i Hi. unfold bound_upper. rewrite Hf, (Hconf i Hi), HB.
    reflexivity. }
  destruct (wasreset (mygrid a)) eqn:Hw.
  - destruct (rebind_bounds_Ok a f (fun _ => Ho))
      as (mins & maxs & Hb & _).
    assert (Hu : exists a1, update_ a f = Ok a1).
    { rewrite (update_processed _ _ _ _ _ a f Hp).
      unfold process_frame, bind_or_check. rewrite Hw, Hb.
      eexists; reflexivity. }
    destruct Hu as [a1 Hu]. exists a1. split; [exact Hu|].
    intros _ i Hi.
    destruct (bound_by_step a f a1 Hp Hw Hu) as [_ Hmax].
    rewrite (Hmax i Hi), (Hbu i Hi). reflexivity.
  - destruct (box_check_on_every_axis epsilon convert_to_string
                convert_to_double pbcDistance realToScaled a f Hp Hw)
      as [Hiff Hok].
    destruct Hok as [a1 Hu].
    { intros Herr. apply Hiff in Herr as (i & Hi & Hlt).
      rewrite (Hinv eq_refl i Hi), (Hrt i Hi), HB in Hlt.
      apply (Qlt_not_le _ _ Hlt).
      assert (Hz : 2 * (0.5 * tget B (directions a !!! i) (directions a !!! i))
                   - tget B (directions a !!! i) (directions a !!! i) == 0)
        by field.
      rewrite Hz. exact Heps. }
    exists a1. split; [exact Hu|].
    destruct (update_bound_grid a f a1 Hw Hu) as (_ & _ & Hmax & _).
    intros _ i Hi. unfold getMax in *. rewrite Hmax.
    apply (Hinv eq_refl i Hi).
Qed.

(** X13. Outside fractional mode and with no confined axis, a run in an
    orthorhombic box that never changes never fails, whatever the steps
    and whenever the store signals a clearing.  The tolerance is assumed
    not to be negative, and half the box to survive its conversion to a
    string and back. *)
Theorem fixed_box_run_never_fails (B : Tensor) steps :
  0 <= epsilon ->
  Forall (fun s : bool * Frame => getBox s.2 = B /\ isOrthorombic s.2 = true)
    steps ->
  forall a,
    fractional a = false ->
    (forall i : nat, (i < length (directions a))%nat ->
       (confined a !!! i : bool) = false) ->
    (forall i : nat, (i < length (directions a))%nat ->
       convert_to_double
         (convert_to_string
            (0.5 * tget B (directions a !!! i) (directions a !!! i)))
       == 0.5 * tget B (directions a !!! i) (directions a !!! i)) ->
    (wasreset (mygrid a) = false ->
     forall i : nat, (i < length (directions a))%nat ->
       getMax (mygrid a) !!! i
       = convert_to_string
           (0.5 * tget B (directions a !!! i) (directions a !!! i))) ->
    exists a', run_ a steps = Ok a'.
Proof.
  intros Heps Hsteps.
  induction Hsteps as [|[cleared f] rest [HB Ho] _ IH];
    intros a Hf Hconf Hrt Hinv.
  - exists a. reflexivity.
  - cbn [snd] in HB, Ho. cbn [run].
    set (a0 := if cleared then set_mygrid (signal_reset (mygrid a)) a else a).
    assert (Hsame : fractional a0 = fractional a
                    /\ confined a0 = confined a
                    /\ directions a0 = directions a)
      by (subst a0; destruct cleared; repeat split).
    destruct Hsame as (Hf0 & Hc0 & Hd0).
    destruct (fixed_box_step B a0 f Heps) as (a1 & Hu & Hinv1);
      try assumption.
    + congruence.
    + rewrite Hc0, Hd0. exact Hconf.
    + rewrite Hd0. exact Hrt.
    + rewrite Hd0. subst a0. destruct cleared; [discriminate | exact Hinv].
    + rewrite Hu. cbn [mbind result_bind].
      destruct (update_same_configuration a0 f a1 Hu)
        as (_ & _ & Hf1 & _ & _ & _ & _ & Hc1 & _ & _ & Hd1 & _).
      apply IH.
      * congruence.
      * rewrite Hc1, Hd1, Hc0, Hd0. exact Hconf.
      * rewrite Hd1, Hd0. exact Hrt.
      * rewrite Hd1. rewrite Hd0 in Hinv1. rewrite Hd0. exact Hinv1.
Qed.

(** *** When a step succeeds *)

(** X14. [update] succeeds exactly when it leaves the step at its first
    line, or binds the grid in fractional mode or in an orthorhombic cell,
    or finds, on a bound grid, twice the upper bound of every configured
    axis within the tolerance of the diagonal entry of the box. *)
Theorem update_succeeds_exactly a f :
  (exists a', update_ a f = Ok a')
  <-> processed a f = false
      \/ (wasreset (mygrid a) = true
          /\ (fractional a = true \/ isOrthorombic f = true))
      \/ (wasreset (mygrid a) = false
          /\ forall i : nat, (i < length (directions a))%nat ->
               Qabs (2 * convert_to_double (getMax (mygrid a) !!! i)
                     - tget (getBox f) (directions a !!! i) (directions a !!! i))
               <= epsilon).
Proof.
  destruct (processed a f) eqn:Hp.
  2: { split; [intros _; left; reflexivity|]. intros _. exists a.
       unfold update, processed in *. apply negb_false_iff in Hp.
       rewrite Hp. reflexivity. }
  destruct (wasreset (mygrid a)) eqn:Hw.
  - split.
    + intros [a' H]. right. left. split; [reflexivity|].
      destruct (fractional a) eqn:Hf; [left; reflexivity|].
      destruct (isOrthorombic f) eqn:Ho; [right; reflexivity|].
      rewrite (update_processed _ _ _ _ _ a f Hp) in H.
      unfold process_frame, bind_or_check, rebind_bounds in H.
      rewrite Hw, Hf, Ho in H. discriminate.
    + intros [H|[[_ H]|[H _]]]; try discriminate.
      destruct (rebind_bounds_Ok a f) as (mins & maxs & Hb & _).
      { intros Hf. destruct H as [H|H]; [congruence | exact H]. }
      rewrite (update_processed _ _ _ _ _ a f Hp).
      unfold process_frame, bind_or_check. rewrite Hw, Hb.
      eexists; reflexivity.
  - destruct (box_check_on_every_axis epsilon convert_to_string
                convert_to_double pbcDistance realToScaled a f Hp Hw)
      as [Hiff Hok].
    split.
    + intros [a' H]. right. right. split; [reflexivity|].
      intros i Hi. apply Qnot_lt_le. intros Hlt.
      assert (Herr : update_ a f = Error msg_box_size)
        by (apply Hiff; exists i; split; assumption).
      rewrite Herr in H. discriminate.
    + intros [H|[[H _]|[_ H]]]; try discriminate.
      apply Hok. intros Herr. apply Hiff in Herr as (i & Hi & Hlt).
      apply (Qlt_not_le _ _ Hlt), H, Hi.
Qed.

End Steps.

(** ** The further properties on the sample run *)

Section MoreExamples.

Import Sample.



Lemma constructed_action_is_well_formed_witness :
  (3 <= getNumberOfQuantities (built fractional_xz) <= 5)%nat.
Proof.
  destruct (constructed_action_is_well_formed epsilon fractional_xz
              (built fractional_xz)) as (_ & _ & _ & _ & H).
  - vm_compute. reflexivity.
  - exact H.
Defined.

Lemma run_keeps_configuration_witness :
  directions (after (setAnalysisStride true 1 (built confined_x)) three_steps)
  = [0%nat]
  /\ confined (after (setAnalysisStride true 1 (built confined_x)) three_steps)
     = [true].
Proof.
  destruct (run_keeps_configuration epsilon convert_to_string convert_to_double
              pbcDistance realToScaled confined_x (built confined_x) true
              1%nat three_steps
              (after (setAnalysisStride true 1 (built confined_x)) three_steps))
    as (_ & _ & Hd & Hc & _).
  - vm_compute. reflexivity.
  - vm_compute. reflexivity.
  - split; [rewrite Hd | rewrite Hc]; reflexivity.
Defined.

Lemma update_fails_in_two_ways_witness :
  processed (built box_x) (frame 0 (sheared 2) false) = true
  /\ wasreset (mygrid (built box_x)) = true.
Proof.
  destruct (update_fails_in_two_ways epsilon convert_to_string
              convert_to_double pbcDistance realToScaled (built box_x)
              (frame 0 (sheared 2) false) msg_not_orthorhombic)
    as (Hp & [(_ & Hw & _)|(Hm & _)]).
  - vm_compute. reflexivity.
  - split; assumption.
  - discriminate Hm.
Defined.

Lemma bound_grid_keeps_its_bounds_witness :
  grid_max (mygrid (after (after (built box_x) first_step) three_steps))
  = grid_max (mygrid (after (built box_x) first_step)).
Proof.
  destruct (bound_grid_keeps_its_bounds epsilon convert_to_string
              convert_to_double pbcDistance realToScaled three_steps
              (after (built box_x) first_step)
              (after (after (built box_x) first_step) three_steps))
    as (_ & _ & Hmax & _).
  - vm_compute. reflexivity.
  - repeat constructor.
  - vm_compute. reflexivity.
  - exact Hmax.
Defined.

Lemma normalization_restarts_at_a_clearing_witness :
  getNorm (mygrid (after (built box_x) steps_with_clearing)) == 2.
Proof.
  rewrite (normalization_restarts_at_a_clearing epsilon convert_to_string
             convert_to_double pbcDistance realToScaled (built box_x)
             first_step (frame 1 (cubic 2) true)
             [(false, frame 2 (cubic 2) true)]
             (after (built box_x) steps_with_clearing)).
  - vm_compute. reflexivity.
  - vm_compute. reflexivity.
  - vm_compute. reflexivity.
  - repeat constructor.
  - vm_compute. reflexivity.
Defined.

Lemma step_adds_one_vector_per_stored_value_witness :
  length (grid_data (mygrid (after (built box_x) first_step))) = 2%nat.
Proof.
  rewrite (step_adds_one_vector_per_stored_value epsilon convert_to_string
             convert_to_double pbcDistance realToScaled (built box_x)
             (frame 0 (cubic 2) true) (after (built box_x) first_step)).
  - reflexivity.
  - unfold well_formed. vm_compute.
    repeat split; try discriminate; repeat constructor.
  - vm_compute. reflexivity.
  - vm_compute. reflexivity.
Defined.

Lemma performTask_overwrites_every_entry_witness :
  performTask pbcDistance realToScaled (built fractional_xz)
    (frame 0 (cubic 2) true) 0 0 [7; 7; 7; 7]
  = [1; (0.25 - 0) / 2; (0.25 - 0) / 2; 1].
Proof.
  rewrite (performTask_overwrites_every_entry pbcDistance realToScaled
             (built fractional_xz) (frame 0 (cubic 2) true) 0%nat 0%nat
             [7; 7; 7; 7]).
  - reflexivity.
  - reflexivity.
Defined.

Lemma grid_option_string_witness :
  grid_options (mygrid (built confined_x))
  = "gaussian 0.05 PBC=F COMPONENTS=dens.dens COORDINATES=x".
Proof.
  destruct (grid_option_string epsilon confined_x (built confined_x))
    as [H _].
  - vm_compute. reflexivity.
  - rewrite H. reflexivity.
Defined.

Lemma box_check_after_binding_witness :
  step (after (built fractional_x) first_step) (frame 1 (cubic 2) true)
  = Error msg_box_size.
Proof.
  apply (proj1 (box_check_after_binding epsilon convert_to_string
                  convert_to_double pbcDistance realToScaled
                  (built fractional_x) (frame 0 (cubic 2) true)
                  (after (built fractional_x) first_step)
                  (frame 1 (cubic 2) true)
                  ltac:(vm_compute; reflexivity) ltac:(vm_compute; reflexivity)
                  ltac:(vm_compute; reflexivity) ltac:(vm_compute; reflexivity)
                  ltac:(intros i Hi; vm_compute in Hi; destruct i as [|i];
                        [vm_compute; reflexivity | exfalso; lia]))).
  exists 0%nat. split; vm_compute; reflexivity.
Defined.

Lemma box_check_detects_change_witness :
  step (after (built box_x) first_step) (frame 1 (cubic 3) true)
  = Error msg_box_size.
Proof.
  apply (box_check_detects_change epsilon convert_to_string convert_to_double
           pbcDistance realToScaled (built box_x) (frame 0 (cubic 2) true)
           (after (built box_x) first_step) (frame 1 (cubic 3) true)).
  - reflexivity.
  - intros i Hi. vm_compute in Hi. destruct i as [|i];
      [reflexivity | exfalso; lia].
  - vm_compute. reflexivity.
  - vm_compute. reflexivity.
  - vm_compute. reflexivity.
  - vm_compute. reflexivity.
  - intros i Hi. vm_compute in Hi. destruct i as [|i];
      [vm_compute; reflexivity | exfalso; lia].
  - exists 0%nat. split; vm_compute; reflexivity.
Defined.

Lemma fixed_box_run_never_fails_witness :
  exists a', steps (built box_x) steps_with_clearing = Ok a'.
Proof.
  apply (fixed_box_run_never_fails epsilon convert_to_string convert_to_double
           pbcDistance realToScaled (cubic 2) steps_with_clearing).
  - vm_compute. discriminate.
  - repeat constructor.
  - reflexivity.
  - intros i Hi. vm_compute in Hi. destruct i as [|i];
      [reflexivity | exfalso; lia].
  - intros i Hi. vm_compute in Hi. destruct i as [|i];
      [vm_compute; reflexivity | exfalso; lia].
  - intros Hw. vm_compute in Hw. discriminate.
Defined.

Lemma update_succeeds_exactly_witness :
  exists a', step (built fractional_x) (frame 0 (sheared 2) false) = Ok a'.
Proof.
  apply (proj2 (update_succeeds_exactly epsilon convert_to_string
                  convert_to_double pbcDistance realToScaled
                  (built fractional_x) (frame 0 (sheared 2) false))).
  right. left. split; [vm_compute; reflexivity|]. left. reflexivity.
Defined.

End MoreExamples.
